(** * TrustedGenAi attestation server: a shallow embedding of
      [scripts/attestation_server.py] and the properties of its collectors.

    Text is modelled by [string]: one [ascii] per code point, so the model
    covers text whose code points are below 256 (Latin-1).  On that range
    [lower], [strip], [split] and the [in] test below agree with Python's
    [str.lower], [str.strip], [str.split(sep)] and [sub in s]. *)

From Stdlib Require Import Ascii.
From Stdlib Require String.
From stdpp Require Import base option list gmap strings.

Set Warnings "-register-all".

(** ** Python's string operations *)

Module PyStr.

(** [s.startswith(sub)] *)
Fixpoint startswith (sub s : string) : bool :=
  match sub, s with
  | EmptyString, _ => true
  | String _ _, EmptyString => false
  | String a sub', String b s' => Ascii.eqb a b && startswith sub' s'
  end.

(** [sub in s] *)
Fixpoint contains (sub s : string) : bool :=
  startswith sub s ||
  match s with
  | EmptyString => false
  | String _ s' => contains sub s'
  end.

(** The upper-case letters of Latin-1: A-Z, and U+00C0-U+00DE without the
    multiplication sign U+00D7. *)
Definition isupper (c : ascii) : bool :=
  let n := nat_of_ascii c in
  (Nat.leb 65 n && Nat.leb n 90) ||
  (Nat.leb 192 n && Nat.leb n 222 && negb (Nat.eqb n 215)).

Definition lower_char (c : ascii) : ascii :=
  if isupper c then ascii_of_nat (nat_of_ascii c + 32) else c.

(** [s.lower()] *)
Fixpoint lower (s : string) : string :=
  match s with
  | EmptyString => EmptyString
  | String c s' => String (lower_char c) (lower s')
  end.

(** [c.isspace()] on Latin-1: TAB-CR, FS-US, space, NEL and NBSP. *)
Definition isspace (c : ascii) : bool :=
  let n := nat_of_ascii c in
  (Nat.leb 9 n && Nat.leb n 13) || (Nat.leb 28 n && Nat.leb n 32) ||
  Nat.eqb n 133 || Nat.eqb n 160.

(** [s.lstrip()] *)
Fixpoint lstrip (s : string) : string :=
  match s with
  | EmptyString => EmptyString
  | String c s' => if isspace c then lstrip s' else s
  end.

(** [s.rstrip()] *)
Fixpoint rstrip (s : string) : string :=
  match s with
  | EmptyString => EmptyString
  | String c s' =>
      match rstrip s' with
      | EmptyString => if isspace c then EmptyString else String c EmptyString
      | r => String c r
      end
  end.

(** [s.strip()] *)
Definition strip (s : string) : string := rstrip (lstrip s).

(** [s.split(sep)] for a one-character separator: never the empty list. *)
Fixpoint split (sep : ascii) (s : string) : list string :=
  match s with
  | EmptyString => [EmptyString]
  | String c s' =>
      if Ascii.eqb c sep then EmptyString :: split sep s'
      else match split sep s' with
           | [] => [String c EmptyString]
           | p :: ps => String c p :: ps
           end
  end.

(** [s[:n]] *)
Fixpoint take (n : nat) (s : string) : string :=
  match n, s with
  | S n', String c s' => String c (take n' s')
  | _, _ => EmptyString
  end.

(** The text before the first [sep] (all of [s] when there is none) and the
    text after it (empty when there is none): [s.partition(sep)]. *)
Fixpoint before (sep : ascii) (s : string) : string :=
  match s with
  | EmptyString => EmptyString
  | String c s' => if Ascii.eqb c sep then EmptyString else String c (before sep s')
  end.

Fixpoint after (sep : ascii) (s : string) : string :=
  match s with
  | EmptyString => EmptyString
  | String c s' => if Ascii.eqb c sep then s' else after sep s'
  end.

Definition newline : ascii := ascii_of_nat 10.
Definition colon : ascii := ascii_of_nat 58.

End PyStr.

Import PyStr.

(** ** Exceptions

    A Python exception is its class and the text [str(e)].  The classes are
    those that the external calls and the parsing code of the collectors can
    raise; [KeyboardInterrupt] and [SystemExit] derive from [BaseException]
    only, so [except Exception] lets them through. *)

Inductive exn_class :=
  | FileNotFoundError | PermissionError | OSError
  | TimeoutExpired | CalledProcessError
  | UnicodeDecodeError | JSONDecodeError
  | IndexError | TypeError | AttributeError | KeyError
  | RecursionError
  | KeyboardInterrupt | SystemExit.

Record exn := Exn { exn_cls : exn_class; exn_str : string }.

(** [isinstance(e, FileNotFoundError)] *)
Definition is_FileNotFoundError (e : exn) : bool :=
  match exn_cls e with FileNotFoundError => true | _ => false end.

(** [isinstance(e, subprocess.TimeoutExpired)] *)
Definition is_TimeoutExpired (e : exn) : bool :=
  match exn_cls e with TimeoutExpired => true | _ => false end.

(** [isinstance(e, Exception)] *)
Definition is_Exception (e : exn) : bool :=
  match exn_cls e with KeyboardInterrupt | SystemExit => false | _ => true end.

(** The outcome of evaluating an expression: a value, or a raised exception. *)
Inductive result (A : Type) :=
  | Ok (a : A)
  | Raise (e : exn).
Arguments Ok {A} a.
Arguments Raise {A} e.

#[global] Instance result_ret : MRet result := fun A a => Ok a.
#[global] Instance result_bind : MBind result := fun A B f m =>
  match m with
  | Ok a => f a
  | Raise e => Raise e
  end.

(** [try: body  except ...: handler]: [handler e] is [None] when no [except]
    clause matches [e], which then propagates. *)
Definition try_except {A} (body : result A) (handler : exn -> option (result A)) : result A :=
  match body with
  | Ok a => Ok a
  | Raise e => match handler e with
               | Some r => r
               | None => Raise e
               end
  end.

(** [except Exception [as e]: return h e] *)
Definition except_Exception {A} (h : exn -> A) (e : exn) : option (result A) :=
  if is_Exception e then Some (Ok (h e)) else None.

(** An outcome that is a value or an exception deriving from [Exception]. *)
Definition ordinary {A} (r : result A) : bool :=
  match r with Ok _ => true | Raise e => is_Exception e end.

(** ** Values decoded by [json.loads] *)

Inductive pyval :=
  | PNone
  | PBool (b : bool)
  | PInt (z : Z)
  | PFloat (repr : string)
  | PStr (s : string)
  | PList (l : list pyval)
  | PDict (items : list (string * pyval)).

Definition type_name (v : pyval) : string :=
  match v with
  | PNone => "NoneType"
  | PBool _ => "bool"
  | PInt _ => "int"
  | PFloat _ => "float"
  | PStr _ => "str"
  | PList _ => "list"
  | PDict _ => "dict"
  end.

Definition dquote : string := String (ascii_of_nat 34) EmptyString.

(** [d.get(key, default)] on the items of a dict *)
Fixpoint dict_get (items : list (string * pyval)) (key : string) (default : pyval) : pyval :=
  match items with
  | [] => default
  | (k, v) :: rest => if String.eqb k key then v else dict_get rest key default
  end.

(** [data.get(key, default)]: only a dict has the method. *)
Definition py_get (data : pyval) (key : string) (default : pyval) : result pyval :=
  match data with
  | PDict items => Ok (dict_get items key default)
  | _ => Raise (Exn AttributeError
                  ("'" +:+ type_name data +:+ "' object has no attribute 'get'"))
  end.

(** [len(v)] *)
Definition py_len (v : pyval) : result nat :=
  match v with
  | PStr s => Ok (String.length s)
  | PList l => Ok (length l)
  | PDict items => Ok (length items)
  | _ => Raise (Exn TypeError ("object of type '" +:+ type_name v +:+ "' has no len()"))
  end.

(** [v[:n]] (the class and text raised for a dict are those of CPython up to
    3.11; later versions raise [KeyError], also an [Exception]). *)
Definition py_slice_to (n : nat) (v : pyval) : result pyval :=
  match v with
  | PStr s => Ok (PStr (PyStr.take n s))
  | PList l => Ok (PList (List.firstn n l))
  | PDict _ => Raise (Exn TypeError "unhashable type: 'slice'")
  | _ => Raise (Exn TypeError ("'" +:+ type_name v +:+ "' object is not subscriptable"))
  end.

(** [v + '...'], the right operand being a [str] *)
Definition py_add_str (v : pyval) (s : string) : result pyval :=
  match v with
  | PStr a => Ok (PStr (a +:+ s))
  | PList _ => Raise (Exn TypeError
                 ("can only concatenate list (not " +:+ dquote +:+ "str" +:+ dquote +:+ ") to list"))
  | _ => Raise (Exn TypeError
                 ("unsupported operand type(s) for +: '" +:+ type_name v +:+ "' and 'str'"))
  end.

(** ** The collectors

    Each collector shells out once.  Its argument is the outcome of that
    call, [subprocess.check_output([...], timeout=...).decode()]: the decoded
    standard output, or the exception raised by the call or by [decode]. *)

(** [get_tee_platform] *)
Definition get_tee_platform (run : result string) : result string :=
  try_except
    (dmesg ← run;
     if contains "Intel TDX" dmesg || contains "tdx" (lower dmesg) then Ok "Intel-TDX"
     else if contains "SEV-SNP" dmesg || contains "sev" (lower dmesg) then Ok "AMD-SEV-SNP"
     else if contains "Memory Encryption" dmesg then Ok "AMD-SEV-SNP"
     else Ok "Unknown")
    (except_Exception (fun _ => "Unknown")).

Definition tee_keywords : list string :=
  ["tdx"; "sev"; "memory encryption"; "confidential"; "encrypted"].

(** One turn of the loop of [get_tee_dmesg_lines] over [lines]. *)
Definition tee_lines_step (tee_lines : list string) (line : string) : list string :=
  let line_lower := lower line in
  if existsb (fun kw => contains kw line_lower) tee_keywords
  then tee_lines ++ [strip line]
  else tee_lines.

(** [get_tee_dmesg_lines] *)
Definition get_tee_dmesg_lines (run : result string) : result (list string) :=
  try_except
    (dmesg ← run;
     let lines := split newline dmesg in
     let tee_lines := fold_left tee_lines_step lines [] in
     Ok (List.firstn 10 tee_lines))
    (except_Exception (fun e => ["Error reading dmesg: " +:+ exn_str e])).

(** The dict returned by [get_azure_attestation]: the two fields of the
    document, or the single key [error]. *)
Inductive AzureAttestation :=
  | AzureDocument (encoding signature : pyval)
  | AzureError (error : string).

(** [get_azure_attestation]; [loads] is [json.loads]. *)
Definition get_azure_attestation (loads : string -> result pyval) (run : result string)
  : result AzureAttestation :=
  try_except
    (result ← run;
     data ← loads result;
     encoding ← py_get data "encoding" (PStr "unknown");
     sig ← py_get data "signature" (PStr "");
     n ← py_len sig;
     signature ← (if Nat.ltb 200 n
                  then sig ← py_get data "signature" (PStr "");
                       head ← py_slice_to 200 sig;
                       py_add_str head "..."
                  else py_get data "signature" (PStr ""));
     Ok (AzureDocument encoding signature))
    (except_Exception (fun e => AzureError (exn_str e))).

(** One turn of the loop of [get_tpm_pcr_values] over the lines of the
    output; [len(parts) >= 2] is the second case of the [match]. *)
Definition tpm_line_step (pcr_values : gmap string string) (line : string) : gmap string string :=
  if contains ":" line && contains "0x" line then
    match split colon (strip line) with
    | p0 :: p1 :: _ => <[strip p0 := strip p1]> pcr_values
    | _ => pcr_values
    end
  else pcr_values.

(** The [try] block of [get_tpm_pcr_values], started on the dict
    [pcr_values]: how it ended and the dict it left. *)
Definition tpm_try (run : result string) (pcr_values : gmap string string)
  : result unit * gmap string string :=
  match run with
  | Raise e => (Raise e, pcr_values)
  | Ok result => (Ok tt, fold_left tpm_line_step (split newline result) pcr_values)
  end.

(** [get_tpm_pcr_values]: the [except] clauses write into the dict that the
    [try] block left. *)
Definition get_tpm_pcr_values (run : result string) : result (gmap string string) :=
  let pcr_values : gmap string string := ∅ in
  match tpm_try run pcr_values with
  | (Ok _, pcr_values) => Ok pcr_values
  | (Raise e, pcr_values) =>
      if is_FileNotFoundError e then Ok (<["error" := "tpm2-tools not installed"]> pcr_values)
      else if is_TimeoutExpired e then Ok (<["error" := "TPM read timeout"]> pcr_values)
      else if is_Exception e then Ok (<["error" := exn_str e]> pcr_values)
      else Raise e
  end.

(** The dict [result] of [get_gpu_tee_status]: three keys that are always
    there, and the keys [gpu_model] and [error] that may be added. *)
Record GpuStatus := {
  gpu_detected : bool;
  gpu_tee_verified : bool;
  nvidia_cc_mode : string;
  gpu_model : option string;
  error : option string
}.

Definition set_gpu_detected (b : bool) (r : GpuStatus) : GpuStatus :=
  {| gpu_detected := b; gpu_tee_verified := gpu_tee_verified r;
     nvidia_cc_mode := nvidia_cc_mode r; gpu_model := gpu_model r; error := error r |}.
Definition set_gpu_tee_verified (b : bool) (r : GpuStatus) : GpuStatus :=
  {| gpu_detected := gpu_detected r; gpu_tee_verified := b;
     nvidia_cc_mode := nvidia_cc_mode r; gpu_model := gpu_model r; error := error r |}.
Definition set_nvidia_cc_mode (m : string) (r : GpuStatus) : GpuStatus :=
  {| gpu_detected := gpu_detected r; gpu_tee_verified := gpu_tee_verified r;
     nvidia_cc_mode := m; gpu_model := gpu_model r; error := error r |}.
Definition set_gpu_model (m : string) (r : GpuStatus) : GpuStatus :=
  {| gpu_detected := gpu_detected r; gpu_tee_verified := gpu_tee_verified r;
     nvidia_cc_mode := nvidia_cc_mode r; gpu_model := Some m; error := error r |}.
Definition set_error (m : string) (r : GpuStatus) : GpuStatus :=
  {| gpu_detected := gpu_detected r; gpu_tee_verified := gpu_tee_verified r;
     nvidia_cc_mode := nvidia_cc_mode r; gpu_model := gpu_model r; error := Some m |}.

Definition gpu_initial : GpuStatus :=
  {| gpu_detected := false; gpu_tee_verified := false; nvidia_cc_mode := "unknown";
     gpu_model := None; error := None |}.

(** The loop that looks for the GPU model: the first line with
    [Product Name] ends it, with [line.split(':')[1]] or an [IndexError]. *)
Fixpoint gpu_model_loop (lines : list string) (r : GpuStatus) : result unit * GpuStatus :=
  match lines with
  | [] => (Ok tt, r)
  | line :: rest =>
      if contains "Product Name" line then
        match nth_error (split colon line) 1 with
        | Some p => (Ok tt, set_gpu_model (strip p) r)
        | None => (Raise (Exn IndexError "list index out of range"), r)
        end
      else gpu_model_loop rest r
  end.

(** The [try] block of [get_gpu_tee_status], started on the dict [r]. *)
Definition gpu_try (run : result string) (r : GpuStatus) : result unit * GpuStatus :=
  match run with
  | Raise e => (Raise e, r)
  | Ok nvidia_smi =>
      let r := set_gpu_detected true r in
      let r := if contains "Confidential Computing" nvidia_smi
               then set_nvidia_cc_mode "on" (set_gpu_tee_verified true r)
               else set_nvidia_cc_mode "off" r in
      gpu_model_loop (split newline nvidia_smi) r
  end.

(** [get_gpu_tee_status] *)
Definition get_gpu_tee_status (run : result string) : result GpuStatus :=
  match gpu_try run gpu_initial with
  | (Ok _, r) => Ok r
  | (Raise e, r) =>
      if is_FileNotFoundError e then Ok r
      else if is_Exception e then Ok (set_error (exn_str e) r)
      else Raise e
  end.

(** [get_vm_size]; [environ] is the value of [VM_SIZE] in [os.environ]. *)
Definition get_vm_size (environ : option string) (run : result string) : result string :=
  try_except
    (result ← run; Ok (strip result))
    (except_Exception (fun _ => default "Unknown" environ)).

(** ** The aggregator *)

(** The dict [response] of [handle_attestation]; the last three keys are
    there only when a GPU was detected. *)
Module Response.
Record t := {
  platform : string;
  tee_verified : bool;
  vm_size : string;
  azure_attestation : AzureAttestation;
  tpm_pcr_sha256 : gmap string string;
  tee_dmesg : list string;
  timestamp : string;
  gpu : option string;
  gpu_tee_verified : option bool;
  nvidia_cc_mode : option string
}.

(** The three assignments under [if gpu_status['gpu_detected']]. *)
Definition add_gpu (model : string) (verified : bool) (mode : string) (r : t) : t :=
  {| platform := platform r; tee_verified := tee_verified r; vm_size := vm_size r;
     azure_attestation := azure_attestation r; tpm_pcr_sha256 := tpm_pcr_sha256 r;
     tee_dmesg := tee_dmesg r; timestamp := timestamp r;
     gpu := Some model; gpu_tee_verified := Some verified; nvidia_cc_mode := Some mode |}.
End Response.

Inductive Body :=
  | AttestationBody (response : Response.t)
  | HealthBody (status service timestamp : string)
  | ErrorBody (error : string).

Record Reply := {
  status_code : nat;
  headers : list (string * string);
  body : Body
}.

(** What the outside world answers during one request: the outcome of each
    external call, in the order of the calls, [json.loads], the environment
    variable and the clock; and the outcome of the statements that answer
    the client.  [send_headers status headers] is the outcome of
    [send_response(status)], the [send_header] calls and [end_headers()],
    which write to the socket and may raise [OSError];
    [write_body body] is the outcome of
    [self.wfile.write(json.dumps(body).encode())], where [json.dumps] raises
    [RecursionError] on a body that is nested too deep and the write may
    raise [OSError]. *)
Record Env := {
  dmesg_platform : result string;
  dmesg_evidence : result string;
  curl_vm_size : result string;
  environ_VM_SIZE : option string;
  curl_attested_document : result string;
  json_loads : string -> result pyval;
  tpm2_pcrread : result string;
  nvidia_smi_q : result string;
  utcnow_isoformat : string;
  send_headers : nat -> list (string * string) -> result unit;
  write_body : Body -> result unit
}.

(** [platform in ['Intel-TDX', 'AMD-SEV-SNP']] *)
Definition in_list (x : string) (l : list string) : bool :=
  existsb (String.eqb x) l.

(** [AttestationHandler.handle_attestation]: a value is the reply that was
    sent in full; an exception is one that leaves the handler, also after
    the status line and the headers were sent. *)
Definition handle_attestation (env : Env) : result Reply :=
  platform ← get_tee_platform (dmesg_platform env);
  tee_dmesg ← get_tee_dmesg_lines (dmesg_evidence env);
  vm_size ← get_vm_size (environ_VM_SIZE env) (curl_vm_size env);
  azure_attestation ← get_azure_attestation (json_loads env) (curl_attested_document env);
  tpm_pcr_sha256 ← get_tpm_pcr_values (tpm2_pcrread env);
  let response :=
    {| Response.platform := platform;
       Response.tee_verified := in_list platform ["Intel-TDX"; "AMD-SEV-SNP"];
       Response.vm_size := vm_size;
       Response.azure_attestation := azure_attestation;
       Response.tpm_pcr_sha256 := tpm_pcr_sha256;
       Response.tee_dmesg := tee_dmesg;
       Response.timestamp := utcnow_isoformat env;
       Response.gpu := None;
       Response.gpu_tee_verified := None;
       Response.nvidia_cc_mode := None |} in
  gpu_status ← get_gpu_tee_status (nvidia_smi_q env);
  let response :=
    if gpu_detected gpu_status
    then Response.add_gpu (default "NVIDIA-GPU" (gpu_model gpu_status))
           (gpu_tee_verified gpu_status) (nvidia_cc_mode gpu_status) response
    else response in
  let headers := [("Content-type", "application/json");
                  ("Access-Control-Allow-Origin", "*")] in
  _ ← send_headers env 200 headers;
  _ ← write_body env (AttestationBody response);
  Ok {| status_code := 200; headers := headers; body := AttestationBody response |}.

(** [AttestationHandler.handle_health] *)
Definition handle_health (env : Env) : result Reply :=
  let response := HealthBody "healthy" "attestation" (utcnow_isoformat env) in
  let headers := [("Content-type", "application/json")] in
  _ ← send_headers env 200 headers;
  _ ← write_body env response;
  Ok {| status_code := 200; headers := headers; body := response |}.

(** [AttestationHandler.do_GET] *)
Definition do_GET (path : string) (env : Env) : result Reply :=
  if in_list path ["/attestation"; "/v1/attestation"] then handle_attestation env
  else if String.eqb path "/health" then handle_health env
  else
    let headers := [("Content-type", "application/json")] in
    _ ← send_headers env 404 headers;
    _ ← write_body env (ErrorBody "Not found");
    Ok {| status_code := 404; headers := headers; body := ErrorBody "Not found" |}.

(** ** The statements of the specification that the code is compared with *)

(** The Platform Detector as the specification words it: three rules, each
    a case-insensitive search, the first that matches wins. *)
Definition platform_by_spec (dmesg : string) : string :=
  if contains "tdx" (lower dmesg) then "Intel-TDX"
  else if contains "sev-snp" (lower dmesg) || contains "sev" (lower dmesg) then "AMD-SEV-SNP"
  else if contains "memory encryption" (lower dmesg) then "AMD-SEV-SNP"
  else "Unknown".

(** The register entry of a line as the specification words it: the line is
    split on its first colon, the label is the part before it and the value
    the part after it, both trimmed. *)
Definition tpm_entry_by_spec (line : string) : string * string :=
  (strip (before colon line), strip (after colon line)).

(** The register entry that the code takes from a line: the value ends at
    the second colon when there is one. *)
Definition tpm_entry (line : string) : string * string :=
  (strip (before colon line), strip (before colon (after colon line))).

(** A line is a register entry when it has a colon and the marker [0x]. *)
Definition is_tpm_entry (line : string) : bool :=
  contains ":" line && contains "0x" line.

(** A line of the kernel log is evidence when it has one of the keywords. *)
Definition is_tee_line (line : string) : bool :=
  existsb (fun kw => contains kw (lower line)) tee_keywords.

(** ** Auxiliary definitions for the statements *)

(** The preview of a signature string: at most 200 characters of it, and
    the marker when something was cut. *)
Definition signature_preview (s : string) : string :=
  if Nat.ltb 200 (String.length s) then PyStr.take 200 s +:+ "..." else s.

(** [c * n]: a text of [n] times the character [c], and an attestation
    document whose signature is such a text. *)
Fixpoint repeat_char (c : ascii) (n : nat) : string :=
  match n with
  | O => EmptyString
  | S n' => String c (repeat_char c n')
  end.

Definition document_with_signature (n : nat) : pyval :=
  PDict [("encoding", PStr "pkcs7"); ("signature", PStr (repeat_char "M" n))].

(** The line from which the GPU model is taken: the first with
    [Product Name]. *)
Definition first_product_name (lines : list string) : option string :=
  List.find (contains "Product Name") lines.

(** The response that [handle_attestation] composes from what the
    collectors returned. *)
Definition compose_response (platform : string) (tee_dmesg : list string)
    (vm_size : string) (azure_attestation : AzureAttestation)
    (tpm_pcr_sha256 : gmap string string) (timestamp : string)
    (gpu_status : GpuStatus) : Response.t :=
  {| Response.platform := platform;
     Response.tee_verified := in_list platform ["Intel-TDX"; "AMD-SEV-SNP"];
     Response.vm_size := vm_size;
     Response.azure_attestation := azure_attestation;
     Response.tpm_pcr_sha256 := tpm_pcr_sha256;
     Response.tee_dmesg := tee_dmesg;
     Response.timestamp := timestamp;
     Response.gpu :=
       if gpu_detected gpu_status
       then Some (default "NVIDIA-GPU" (gpu_model gpu_status)) else None;
     Response.gpu_tee_verified :=
       if gpu_detected gpu_status then Some (gpu_tee_verified gpu_status) else None;
     Response.nvidia_cc_mode :=
       if gpu_detected gpu_status then Some (nvidia_cc_mode gpu_status) else None |}.

(** The reply that carries a response: status 200 and the two headers. *)
Definition attestation_reply (response : Response.t) : Reply :=
  {| status_code := 200;
     headers := [("Content-type", "application/json");
                 ("Access-Control-Allow-Origin", "*")];
     body := AttestationBody response |}.

(** The failures of the external calls and of [json.loads] are exceptions
    that derive from [Exception]. *)
Definition env_ordinary (env : Env) : Prop :=
  ordinary (dmesg_platform env) = true /\
  ordinary (dmesg_evidence env) = true /\
  ordinary (curl_vm_size env) = true /\
  ordinary (curl_attested_document env) = true /\
  (forall text, ordinary (json_loads env text) = true) /\
  ordinary (tpm2_pcrread env) = true /\
  ordinary (nvidia_smi_q env) = true.

(** Every character of [s] satisfies [p]. *)
Fixpoint all_chars (p : ascii -> bool) (s : string) : bool :=
  match s with
  | EmptyString => true
  | String c s' => p c && all_chars p s'
  end.

(** [c in '0123456789'] and [c in string.hexdigits] *)
Definition isdigit (c : ascii) : bool :=
  let n := nat_of_ascii c in Nat.leb 48 n && Nat.leb n 57.

Definition ishex (c : ascii) : bool :=
  let n := nat_of_ascii c in
  isdigit c || (Nat.leb 65 n && Nat.leb n 70) || (Nat.leb 97 n && Nat.leb n 102).

(** A well-formed line [N: 0xHEX] of the register-read tool. *)
Definition pcr_line (n hex : string) : string := n +:+ ": 0x" +:+ hex.

(** The client is answered: sending the headers and writing the body
    succeed, whatever the status and the body. *)
Definition output_ok (env : Env) : Prop :=
  (forall status headers, send_headers env status headers = Ok tt) /\
  (forall body, write_body env body = Ok tt).

(** The headers of an attestation reply. *)
Definition attestation_headers : list (string * string) :=
  [("Content-type", "application/json"); ("Access-Control-Allow-Origin", "*")].

(** How deep a decoded value, a document and a body are nested. *)
Fixpoint pydepth (v : pyval) : nat :=
  match v with
  | PList l => S (fold_right (fun x acc => Nat.max (pydepth x) acc) 0 l)
  | PDict items => S (fold_right (fun kv acc => Nat.max (pydepth (snd kv)) acc) 0 items)
  | _ => 0
  end.

Definition azure_depth (a : AzureAttestation) : nat :=
  match a with
  | AzureDocument encoding signature => S (Nat.max (pydepth encoding) (pydepth signature))
  | AzureError _ => 1
  end.

Definition body_depth (b : Body) : nat :=
  match b with
  | AttestationBody response => S (azure_depth (Response.azure_attestation response))
  | _ => 1
  end.

(** [n + 1] lists, one in the other. *)
Fixpoint nested_list (n : nat) : pyval :=
  match n with
  | O => PList []
  | S n' => PList [nested_list n']
  end.

(** ** Example hosts *)

(** A host on which every call of a collector fails; the client is
    answered. *)
Definition env_all_failing : Env :=
  {| dmesg_platform := Raise (Exn CalledProcessError "Command '['dmesg']' returned non-zero exit status 1.");
     dmesg_evidence := Raise (Exn TimeoutExpired "Command '['dmesg']' timed out after 5 seconds");
     curl_vm_size := Raise (Exn FileNotFoundError "[Errno 2] No such file or directory: 'curl'");
     environ_VM_SIZE := None;
     curl_attested_document := Ok "<html>";
     json_loads := fun _ => Raise (Exn JSONDecodeError "Expecting value: line 1 column 1 (char 0)");
     tpm2_pcrread := Raise (Exn FileNotFoundError "[Errno 2] No such file or directory: 'tpm2_pcrread'");
     nvidia_smi_q := Raise (Exn UnicodeDecodeError "'utf-8' codec can't decode byte 0xff in position 0: invalid start byte");
     utcnow_isoformat := "2026-01-29T12:00:00+00:00";
     send_headers := fun _ _ => Ok tt;
     write_body := fun _ => Ok tt |}.

(** A TDX host with a GPU whose tool output has no [Product Name] line. *)
Definition env_tdx_gpu : Env :=
  {| dmesg_platform := Ok "[    0.000000] tdx: Guest detected";
     dmesg_evidence := Ok "[    0.000000] tdx: Guest detected";
     curl_vm_size := Ok "Standard_DC4es_v5";
     environ_VM_SIZE := None;
     curl_attested_document := Ok "{}";
     json_loads := fun _ => Ok (document_with_signature 150);
     tpm2_pcrread := Ok (pcr_line "0" "A1");
     nvidia_smi_q := Ok "GPU 00000000:01:00.0";
     utcnow_isoformat := "2026-01-29T12:00:00+00:00";
     send_headers := fun _ _ => Ok tt;
     write_body := fun _ => Ok tt |}.

(** A TDX host whose attestation document has an [encoding] of 992 nested
    lists, on an interpreter whose [json.dumps] gives up on a body nested
    990 deep or more. *)
Definition env_deep_document : Env :=
  {| dmesg_platform := dmesg_platform env_tdx_gpu;
     dmesg_evidence := dmesg_evidence env_tdx_gpu;
     curl_vm_size := curl_vm_size env_tdx_gpu;
     environ_VM_SIZE := None;
     curl_attested_document := Ok "{}";
     json_loads := fun _ => Ok (PDict [("encoding", nested_list 991); ("signature", PStr "")]);
     tpm2_pcrread := tpm2_pcrread env_tdx_gpu;
     nvidia_smi_q := nvidia_smi_q env_tdx_gpu;
     utcnow_isoformat := "2026-01-29T12:00:00+00:00";
     send_headers := fun _ _ => Ok tt;
     write_body := fun body =>
       if Nat.leb 990 (body_depth body)
       then Raise (Exn RecursionError "maximum recursion depth exceeded")
       else Ok tt |}.

(** The host [env_tdx_gpu] with a client that closed the connection before
    the body is written. *)
Definition env_client_gone : Env :=
  {| dmesg_platform := dmesg_platform env_tdx_gpu;
     dmesg_evidence := dmesg_evidence env_tdx_gpu;
     curl_vm_size := curl_vm_size env_tdx_gpu;
     environ_VM_SIZE := None;
     curl_attested_document := curl_attested_document env_tdx_gpu;
     json_loads := json_loads env_tdx_gpu;
     tpm2_pcrread := tpm2_pcrread env_tdx_gpu;
     nvidia_smi_q := nvidia_smi_q env_tdx_gpu;
     utcnow_isoformat := "2026-01-29T12:00:00+00:00";
     send_headers := fun _ _ => Ok tt;
     write_body := fun _ => Raise (Exn OSError "[Errno 32] Broken pipe") |}.

(** A TDX host on which only the kernel log can be read. *)
Definition env_tdx_bare : Env :=
  {| dmesg_platform := Ok "[    0.000000] Intel TDX: Guest detected";
     dmesg_evidence := Ok "[    0.000000] Intel TDX: Guest detected";
     curl_vm_size := curl_vm_size env_all_failing;
     environ_VM_SIZE := Some "Standard_DC4es_v5";
     curl_attested_document := curl_attested_document env_all_failing;
     json_loads := json_loads env_all_failing;
     tpm2_pcrread := tpm2_pcrread env_all_failing;
     nvidia_smi_q := nvidia_smi_q env_all_failing;
     utcnow_isoformat := "2026-01-29T12:00:05+00:00";
     send_headers := fun _ _ => Ok tt;
     write_body := fun _ => Ok tt |}.

(** The responses to an attestation request on these hosts. *)
Definition response_all_failing : Response.t :=
  (compose_response "Unknown"
       ["Error reading dmesg: Command '['dmesg']' timed out after 5 seconds"]
       "Unknown"
       (AzureError "Expecting value: line 1 column 1 (char 0)")
       {["error" := "tpm2-tools not installed"]}
       "2026-01-29T12:00:00+00:00"
       {| gpu_detected := false; gpu_tee_verified := false; nvidia_cc_mode := "unknown";
          gpu_model := None;
          error := Some "'utf-8' codec can't decode byte 0xff in position 0: invalid start byte" |}).

Definition response_tdx_gpu : Response.t :=
  (compose_response "Intel-TDX" ["[    0.000000] tdx: Guest detected"]
       "Standard_DC4es_v5"
       (AzureDocument (PStr "pkcs7") (PStr (repeat_char "M" 150)))
       {["0" := "0xA1"]}
       "2026-01-29T12:00:00+00:00"
       {| gpu_detected := true; gpu_tee_verified := false; nvidia_cc_mode := "off";
          gpu_model := None; error := None |}).

Definition response_tdx_bare : Response.t :=
  (compose_response "Intel-TDX" ["[    0.000000] Intel TDX: Guest detected"]
       "Standard_DC4es_v5"
       (AzureError "Expecting value: line 1 column 1 (char 0)")
       {["error" := "tpm2-tools not installed"]}
       "2026-01-29T12:00:05+00:00"
       {| gpu_detected := false; gpu_tee_verified := false; nvidia_cc_mode := "unknown";
          gpu_model := None;
          error := Some "'utf-8' codec can't decode byte 0xff in position 0: invalid start byte" |}).

(** ** Auxiliary definitions for the further properties *)

(** [s[0]] and [s[-1]], when [s] is not empty. *)
Definition first_char (s : string) : option ascii :=
  match s with
  | EmptyString => None
  | String c _ => Some c
  end.

Fixpoint last_char (s : string) : option ascii :=
  match s with
  | EmptyString => None
  | String c EmptyString => Some c
  | String _ s' => last_char s'
  end.

(** The keys of the items of a dict. *)
Definition dict_keys (items : list (string * pyval)) : list string := map fst items.

(** A text of [n] lines [line], each ended by a newline. *)
Fixpoint repeat_lines (line : string) (n : nat) : string :=
  match n with
  | O => EmptyString
  | S n' => line +:+ String newline (repeat_lines line n')
  end.

(** The signature fields that the fetcher hands on: a text, or a list or a
    dict of at most 200 elements. *)
Definition signature_accepted (v : pyval) : bool :=
  match v with
  | PStr _ => true
  | PList l => Nat.leb (length l) 200
  | PDict d => Nat.leb (length d) 200
  | _ => false
  end.

Definition is_document (a : AzureAttestation) : bool :=
  match a with
  | AzureDocument _ _ => true
  | AzureError _ => false
  end.


(** ** Facts about the string operations *)

#[local] Arguments String.append !s1 s2 / : simpl nomatch.

Section PyStrFacts.

Lemma startswith_app sub q : startswith sub (sub +:+ q) = true.
Proof.
  induction sub as [|a sub IH]; simpl; [done|].
  by rewrite Ascii.eqb_refl, IH.
Qed.

Lemma startswith_inv sub s : startswith sub s = true -> exists q, s = sub +:+ q.
Proof.
  revert s; induction sub as [|a sub IH]; intros s H; simpl in *.
  - by exists s.
  - destruct s as [|b s]; [done|].
    apply andb_true_iff in H as [Hab Hs].
    apply Ascii.eqb_eq in Hab as ->.
    destruct (IH _ Hs) as [q ->]. by exists q.
Qed.

Lemma contains_startswith sub s : startswith sub s = true -> contains sub s = true.
Proof. intros H. destruct s; simpl; rewrite H; done. Qed.

Lemma contains_app sub p q : contains sub (p +:+ sub +:+ q) = true.
Proof.
  induction p as [|c p IH]; simpl.
  - apply contains_startswith, startswith_app.
  - rewrite IH. apply orb_true_r.
Qed.

Lemma contains_inv sub s : contains sub s = true -> exists p q, s = p +:+ sub +:+ q.
Proof.
  induction s as [|c s IH]; simpl; intros H.
  - rewrite orb_false_r in H. apply startswith_inv in H as [q ->]. by exists "", q.
  - apply orb_true_iff in H as [H|H].
    + apply startswith_inv in H as [q ->]. by exists "", q.
    + destruct (IH H) as (p & q & ->). by exists (String c p), q.
Qed.

Lemma append_assoc (a b c : string) : (a +:+ b) +:+ c = a +:+ b +:+ c.
Proof. induction a as [|x a IH]; simpl; [done|by rewrite IH]. Qed.

Lemma contains_trans a b c :
  contains a b = true -> contains b c = true -> contains a c = true.
Proof.
  intros (p & q & ->)%contains_inv (p' & q' & ->)%contains_inv.
  rewrite !append_assoc, <- (append_assoc p' p).
  apply contains_app.
Qed.

Lemma lower_app a b : lower (a +:+ b) = lower a +:+ lower b.
Proof. induction a as [|x a IH]; simpl; [done|by rewrite IH]. Qed.

Lemma contains_lower sub s :
  contains sub s = true -> contains (lower sub) (lower s) = true.
Proof.
  intros (p & q & ->)%contains_inv.
  rewrite !lower_app. apply contains_app.
Qed.

(** A mixed-case marker is found by the search for its lower-case core. *)
Lemma contains_lower_core core marker s :
  contains core (lower marker) = true ->
  contains marker s = true -> contains core (lower s) = true.
Proof.
  intros Hc Hm. eapply contains_trans; [exact Hc|]. by apply contains_lower.
Qed.

End PyStrFacts.

(** ** The Platform Detector *)

Section PlatformDetector.

Lemma intel_tdx_marker dmesg :
  contains "Intel TDX" dmesg || contains "tdx" (lower dmesg) = contains "tdx" (lower dmesg).
Proof.
  destruct (contains "Intel TDX" dmesg) eqn:H; [|done].
  symmetry. simpl. by apply (contains_lower_core "tdx" "Intel TDX").
Qed.

Lemma sev_snp_marker dmesg :
  contains "SEV-SNP" dmesg || contains "sev" (lower dmesg) = contains "sev" (lower dmesg).
Proof.
  destruct (contains "SEV-SNP" dmesg) eqn:H; [|done].
  symmetry. simpl. by apply (contains_lower_core "sev" "SEV-SNP").
Qed.

Lemma get_tee_platform_failure e :
  is_Exception e = true -> get_tee_platform (Raise e) = Ok "Unknown".
Proof. intros H. unfold get_tee_platform, except_Exception. simpl. by rewrite H. Qed.

(** C3, as the code has it: the searches for [tdx] and [sev] ignore case (and
    so cover [Intel TDX] and [SEV-SNP]), the search for [Memory Encryption]
    is for that exact spelling; the first rule that matches wins, and a log
    that matches none, or that could not be read, gives [Unknown]. *)
Theorem get_tee_platform_rules :
  (forall dmesg,
     get_tee_platform (Ok dmesg) =
     Ok (if contains "tdx" (lower dmesg) then "Intel-TDX"
         else if contains "sev" (lower dmesg) then "AMD-SEV-SNP"
         else if contains "Memory Encryption" dmesg then "AMD-SEV-SNP"
         else "Unknown")) /\
  (forall e, is_Exception e = true -> get_tee_platform (Raise e) = Ok "Unknown").
Proof.
  split; [|exact get_tee_platform_failure].
  intros dmesg. unfold get_tee_platform. simpl.
  rewrite intel_tdx_marker, sev_snp_marker.
  by repeat case_match.
Qed.

Lemma get_tee_platform_rules_witness :
  get_tee_platform (Ok "[0.1] tdx: Guest detected") = Ok "Intel-TDX" /\
  get_tee_platform (Raise (Exn TimeoutExpired "timed out")) = Ok "Unknown".
Proof.
  split.
  - exact (proj1 get_tee_platform_rules "[0.1] tdx: Guest detected").
  - apply (proj2 get_tee_platform_rules). reflexivity.
Defined.

(** C3 as the specification words it fails: a log that spells the third
    marker in lower case is not recognised. *)
Lemma get_tee_platform_not_by_spec :
  get_tee_platform (Ok "memory encryption features active") = Ok "Unknown" /\
  platform_by_spec "memory encryption features active" = "AMD-SEV-SNP" /\
  get_tee_platform (Ok "memory encryption features active") <>
    Ok (platform_by_spec "memory encryption features active").
Proof. split; [reflexivity|]. split; [reflexivity|discriminate]. Qed.

End PlatformDetector.

(** ** The Kernel Evidence Extractor *)

Section KernelEvidence.

(** The loop appends, in order, the trimmed lines that have a keyword. *)
Lemma tee_lines_loop lines acc :
  fold_left tee_lines_step lines acc = acc ++ map strip (List.filter is_tee_line lines).
Proof.
  revert acc; induction lines as [|line lines IH]; intros acc; simpl.
  - by rewrite app_nil_r.
  - rewrite IH. unfold tee_lines_step, is_tee_line.
    destruct (existsb _ tee_keywords); simpl; [|done].
    by rewrite <- app_assoc.
Qed.

Lemma get_tee_dmesg_lines_ok dmesg :
  get_tee_dmesg_lines (Ok dmesg) =
  Ok (List.firstn 10 (map strip (List.filter is_tee_line (split newline dmesg)))).
Proof. unfold get_tee_dmesg_lines. simpl. by rewrite tee_lines_loop. Qed.

Lemma get_tee_dmesg_lines_failure e :
  is_Exception e = true ->
  get_tee_dmesg_lines (Raise e) = Ok ["Error reading dmesg: " +:+ exn_str e].
Proof. intros H. unfold get_tee_dmesg_lines, except_Exception. simpl. by rewrite H. Qed.

Lemma filter_none {A} (p : A -> bool) (l : list A) :
  (forall x, x ∈ l -> p x = false) -> List.filter p l = [].
Proof.
  induction l as [|x l IH]; intros H; simpl; [done|].
  rewrite (H x) by left. apply IH. intros y Hy. apply H. by right.
Qed.

(** C6: at most ten lines are returned; a log that was read and has no
    line with a keyword gives the empty list; a log that could not be read
    gives the one line that reports the failure; and every line returned for
    a log that was read is a trimmed line of that log with a keyword. *)
Theorem get_tee_dmesg_lines_bounded :
  (forall run lines, get_tee_dmesg_lines run = Ok lines -> length lines <= 10) /\
  (forall dmesg,
     (forall line, line ∈ split newline dmesg -> is_tee_line line = false) ->
     get_tee_dmesg_lines (Ok dmesg) = Ok []) /\
  (forall e, is_Exception e = true ->
     get_tee_dmesg_lines (Raise e) = Ok ["Error reading dmesg: " +:+ exn_str e]) /\
  (forall dmesg lines l,
     get_tee_dmesg_lines (Ok dmesg) = Ok lines -> l ∈ lines ->
     exists line, line ∈ split newline dmesg /\ is_tee_line line = true /\ l = strip line).
Proof.
  repeat split.
  - intros [dmesg|e] lines H.
    + rewrite get_tee_dmesg_lines_ok in H. injection H as <-.
      rewrite length_firstn. lia.
    + unfold get_tee_dmesg_lines, except_Exception in H. simpl in H.
      destruct (is_Exception e); [|done]. injection H as <-. simpl. lia.
  - intros dmesg H. rewrite get_tee_dmesg_lines_ok, (filter_none _ _ H). done.
  - exact get_tee_dmesg_lines_failure.
  - intros dmesg lines l H Hl.
    rewrite get_tee_dmesg_lines_ok in H. injection H as <-.
    apply (subseteq_take 10) in Hl.
    apply list_elem_of_fmap in Hl as (line & -> & Hline).
    apply list_elem_of_In, filter_In in Hline as [Hin Hp].
    exists line. by rewrite list_elem_of_In.
Qed.

Lemma get_tee_dmesg_lines_bounded_witness :
  length ["Error reading dmesg: timed out"] <= 10 /\
  get_tee_dmesg_lines (Ok "boot ok") = Ok [] /\
  get_tee_dmesg_lines (Raise (Exn TimeoutExpired "timed out")) =
    Ok ["Error reading dmesg: timed out"] /\
  exists line, line ∈ split newline " tdx: Guest detected " /\
               is_tee_line line = true /\ "tdx: Guest detected" = strip line.
Proof.
  split; [|split; [|split]].
  - apply (proj1 get_tee_dmesg_lines_bounded (Raise (Exn TimeoutExpired "timed out"))).
    reflexivity.
  - apply (proj1 (proj2 get_tee_dmesg_lines_bounded)).
    intros line Hin. apply list_elem_of_singleton in Hin as ->. reflexivity.
  - apply (proj1 (proj2 (proj2 get_tee_dmesg_lines_bounded))). reflexivity.
  - apply (proj2 (proj2 (proj2 get_tee_dmesg_lines_bounded))
             " tdx: Guest detected " ["tdx: Guest detected"]).
    + reflexivity.
    + left.
Defined.

End KernelEvidence.

(** ** The Cloud Attestation Fetcher *)

Section CloudAttestation.

Lemma length_append (a b : string) :
  String.length (a +:+ b) = String.length a + String.length b.
Proof. induction a as [|x a IH]; simpl; [done|by rewrite IH]. Qed.

Lemma length_take n s : String.length (PyStr.take n s) = Nat.min n (String.length s).
Proof.
  revert s; induction n as [|n IH]; intros [|c s]; simpl; try done.
  by rewrite IH.
Qed.

Lemma take_all n s : String.length s <= n -> PyStr.take n s = s.
Proof.
  revert s; induction n as [|n IH]; intros [|c s] H; simpl in *; try done; [lia|].
  rewrite IH; [done|lia].
Qed.

Lemma signature_preview_length s : String.length (signature_preview s) <= 203.
Proof.
  unfold signature_preview. destruct (Nat.ltb_spec 200 (String.length s)) as [H|H].
  - rewrite length_append, length_take.
    pose proof (Nat.le_min_l 200 (String.length s)).
    change (String.length "...") with 3. lia.
  - lia.
Qed.

(** What the fetcher returns for a document that [json.loads] decodes to a
    dict, by the type of the [signature] field. *)
Lemma get_azure_attestation_dict loads text items :
  loads text = Ok (PDict items) ->
  get_azure_attestation loads (Ok text) =
  let encoding := dict_get items "encoding" (PStr "unknown") in
  match dict_get items "signature" (PStr "") with
  | PStr s => Ok (AzureDocument encoding (PStr (signature_preview s)))
  | PList l =>
      if Nat.ltb 200 (length l)
      then Ok (AzureError ("can only concatenate list (not " +:+ dquote +:+ "str"
                             +:+ dquote +:+ ") to list"))
      else Ok (AzureDocument encoding (PList l))
  | PDict d =>
      if Nat.ltb 200 (length d)
      then Ok (AzureError "unhashable type: 'slice'")
      else Ok (AzureDocument encoding (PDict d))
  | v => Ok (AzureError ("object of type '" +:+ type_name v +:+ "' has no len()"))
  end.
Proof.
  intros Hl. unfold get_azure_attestation, signature_preview. simpl. rewrite Hl. simpl.
  destruct (dict_get items "signature" (PStr "")) as [| | | |s|l|d]; simpl; try done.
  - by destruct (Nat.ltb 200 (String.length s)).
  - by destruct (Nat.ltb 200 (length l)).
  - by destruct (Nat.ltb 200 (length d)).
Qed.

Lemma get_azure_attestation_string_signature loads run encoding s :
  get_azure_attestation loads run = Ok (AzureDocument encoding (PStr s)) ->
  exists s0, s = signature_preview s0.
Proof.
  destruct run as [text|e].
  - destruct (loads text) as [data|e] eqn:Hl.
    + destruct data as [| | | | | |items];
        try (unfold get_azure_attestation; simpl; rewrite Hl; simpl; discriminate).
      rewrite (get_azure_attestation_dict _ _ _ Hl). simpl.
      destruct (dict_get items "signature" (PStr "")) as [| | | |s0|l|d]; try discriminate.
      * intros [= _ <-]. by exists s0.
      * destruct (Nat.ltb 200 (length l)); discriminate.
      * destruct (Nat.ltb 200 (length d)); discriminate.
    + unfold get_azure_attestation, except_Exception. simpl. rewrite Hl. simpl.
      destruct (is_Exception e); discriminate.
  - unfold get_azure_attestation, except_Exception. simpl.
    destruct (is_Exception e); discriminate.
Qed.

(** C4: a signature string that is returned has at most 203 characters; a
    signature field of more than 200 characters is returned as its first
    200 characters and the marker [...], 203 characters in all; a signature
    field of at most 200 characters is returned as it is. *)
Theorem get_azure_attestation_signature :
  (forall loads run encoding s,
     get_azure_attestation loads run = Ok (AzureDocument encoding (PStr s)) ->
     String.length s <= 203) /\
  (forall loads text items s,
     loads text = Ok (PDict items) ->
     dict_get items "signature" (PStr "") = PStr s ->
     200 < String.length s ->
     get_azure_attestation loads (Ok text) =
       Ok (AzureDocument (dict_get items "encoding" (PStr "unknown"))
             (PStr (PyStr.take 200 s +:+ "..."))) /\
     String.length (PyStr.take 200 s +:+ "...") = 203) /\
  (forall loads text items s,
     loads text = Ok (PDict items) ->
     dict_get items "signature" (PStr "") = PStr s ->
     String.length s <= 200 ->
     get_azure_attestation loads (Ok text) =
       Ok (AzureDocument (dict_get items "encoding" (PStr "unknown")) (PStr s))).
Proof.
  split; [|split].
  - intros loads run encoding s H.
    apply get_azure_attestation_string_signature in H as [s0 ->].
    apply signature_preview_length.
  - intros loads text items s Hl Hs Hlen.
    rewrite (get_azure_attestation_dict _ _ _ Hl). cbv zeta. rewrite Hs.
    unfold signature_preview.
    destruct (Nat.ltb_spec 200 (String.length s)) as [_|?]; [|lia].
    split; [done|].
    rewrite length_append, length_take. change (String.length "...") with 3. lia.
  - intros loads text items s Hl Hs Hlen.
    rewrite (get_azure_attestation_dict _ _ _ Hl). cbv zeta. rewrite Hs.
    unfold signature_preview.
    destruct (Nat.ltb_spec 200 (String.length s)) as [?|_]; [lia|done].
Qed.

Lemma get_azure_attestation_signature_witness :
  String.length (repeat_char "M" 200 +:+ "...") <= 203 /\
  (get_azure_attestation (fun _ => Ok (document_with_signature 250)) (Ok "{}") =
     Ok (AzureDocument (PStr "pkcs7") (PStr (repeat_char "M" 200 +:+ "..."))) /\
   String.length (repeat_char "M" 200 +:+ "...") = 203) /\
  get_azure_attestation (fun _ => Ok (document_with_signature 150)) (Ok "{}") =
     Ok (AzureDocument (PStr "pkcs7") (PStr (repeat_char "M" 150))).
Proof.
  split; [|split].
  - apply (proj1 get_azure_attestation_signature
             (fun _ => Ok (document_with_signature 250)) (Ok "{}") (PStr "pkcs7")).
    vm_compute. reflexivity.
  - apply (proj1 (proj2 get_azure_attestation_signature)
             (fun _ => Ok (document_with_signature 250)) "{}"
             [("encoding", PStr "pkcs7"); ("signature", PStr (repeat_char "M" 250))]
             (repeat_char "M" 250)).
    + reflexivity.
    + reflexivity.
    + vm_compute. lia.
  - apply (proj2 (proj2 get_azure_attestation_signature)
             (fun _ => Ok (document_with_signature 150)) "{}"
             [("encoding", PStr "pkcs7"); ("signature", PStr (repeat_char "M" 150))]
             (repeat_char "M" 150)).
    + reflexivity.
    + reflexivity.
    + vm_compute. lia.
Defined.

End CloudAttestation.

(** ** Splitting and trimming *)

Section SplitStrip.

Variable sep : ascii.
Hypothesis sep_not_space : isspace sep = false.

Lemma contains_char_cons a s :
  contains (String sep "") (String a s) = Ascii.eqb sep a || contains (String sep "") s.
Proof. simpl. by rewrite andb_true_r. Qed.

Lemma contains_char_nil : contains (String sep "") "" = false.
Proof. done. Qed.

Lemma eqb_sep_space a : isspace a = true -> Ascii.eqb a sep = false.
Proof.
  intros Ha. destruct (Ascii.eqb_spec a sep) as [->|]; [|done]. congruence.
Qed.

(** [split] cuts at the first separator and goes on with what follows. *)
Lemma split_before_after s :
  split sep s =
  before sep s :: (if contains (String sep "") s then split sep (after sep s) else []).
Proof.
  induction s as [|a s IH]; [done|].
  rewrite contains_char_cons. simpl. rewrite (Ascii.eqb_sym sep a).
  destruct (Ascii.eqb a sep); simpl; [done|]. by rewrite IH.
Qed.

Lemma before_no_sep s : contains (String sep "") s = false -> before sep s = s.
Proof.
  induction s as [|a s IH]; [done|].
  rewrite contains_char_cons, (Ascii.eqb_sym sep a). intros [Ha Hs]%orb_false_iff.
  simpl. rewrite Ha. by rewrite IH.
Qed.

Lemma lstrip_before_lstrip s : lstrip (before sep (lstrip s)) = lstrip (before sep s).
Proof.
  induction s as [|a s IH]; [done|]. simpl.
  destruct (isspace a) eqn:Ha; [|done].
  rewrite (eqb_sep_space a Ha). simpl. by rewrite Ha.
Qed.

Lemma after_lstrip s : after sep (lstrip s) = after sep s.
Proof.
  induction s as [|a s IH]; [done|]. simpl.
  destruct (isspace a) eqn:Ha; [|done].
  by rewrite (eqb_sep_space a Ha).
Qed.

Lemma contains_char_lstrip s :
  contains (String sep "") (lstrip s) = contains (String sep "") s.
Proof.
  induction s as [|a s IH]; [done|].
  rewrite contains_char_cons. simpl lstrip.
  destruct (isspace a) eqn:Ha.
  - rewrite IH, (Ascii.eqb_sym sep a), (eqb_sep_space a Ha). done.
  - by rewrite contains_char_cons.
Qed.

Lemma rstrip_cons a s :
  rstrip (String a s) =
  if String.eqb (rstrip s) "" then (if isspace a then "" else String a "")
  else String a (rstrip s).
Proof. simpl. by destruct (rstrip s). Qed.

Lemma contains_char_rstrip s :
  contains (String sep "") (rstrip s) = contains (String sep "") s.
Proof.
  induction s as [|a s IH]; [done|].
  rewrite rstrip_cons, contains_char_cons, <- IH.
  destruct (rstrip s) as [|b r] eqn:Hr; simpl String.eqb; cbv iota.
  - rewrite contains_char_nil, orb_false_r.
    destruct (isspace a) eqn:Ha.
    + rewrite (Ascii.eqb_sym sep a), (eqb_sep_space a Ha). done.
    + by rewrite contains_char_cons, contains_char_nil, orb_false_r.
  - by rewrite contains_char_cons.
Qed.

Lemma rstrip_has_sep s :
  contains (String sep "") s = true -> rstrip s <> "".
Proof.
  rewrite <- contains_char_rstrip. intros H Hr. by rewrite Hr in H.
Qed.

Lemma before_rstrip s :
  contains (String sep "") s = true -> before sep (rstrip s) = before sep s.
Proof.
  induction s as [|a s IH]; [done|].
  rewrite contains_char_cons, rstrip_cons, (Ascii.eqb_sym sep a).
  destruct (Ascii.eqb_spec a sep) as [->|Ha]; simpl orb; intros Hs.
  - rewrite sep_not_space. simpl. rewrite Ascii.eqb_refl.
    destruct (String.eqb (rstrip s) ""); simpl; by rewrite Ascii.eqb_refl.
  - pose proof (rstrip_has_sep s Hs) as Hne.
    apply String.eqb_neq in Hne. rewrite Hne. simpl.
    apply Ascii.eqb_neq in Ha. rewrite Ha. by rewrite IH.
Qed.

Lemma after_rstrip s :
  contains (String sep "") s = true -> after sep (rstrip s) = rstrip (after sep s).
Proof.
  induction s as [|a s IH]; [done|].
  rewrite contains_char_cons, rstrip_cons, (Ascii.eqb_sym sep a).
  destruct (Ascii.eqb_spec a sep) as [->|Ha]; simpl orb; intros Hs.
  - rewrite sep_not_space. simpl after. rewrite Ascii.eqb_refl.
    destruct (String.eqb_spec (rstrip s) "") as [->|_]; simpl; by rewrite Ascii.eqb_refl.
  - pose proof (rstrip_has_sep s Hs) as Hne.
    apply String.eqb_neq in Hne. rewrite Hne. simpl.
    apply Ascii.eqb_neq in Ha. rewrite Ha. by rewrite IH.
Qed.

End SplitStrip.

Section StripFacts.

Lemma rstrip_idemp s : rstrip (rstrip s) = rstrip s.
Proof.
  induction s as [|a s IH]; [done|].
  rewrite rstrip_cons.
  destruct (String.eqb_spec (rstrip s) "") as [Hr|Hr].
  - destruct (isspace a) eqn:Ha; [done|]. simpl. by rewrite Ha.
  - rewrite rstrip_cons, IH.
    apply String.eqb_neq in Hr. by rewrite Hr.
Qed.

Lemma lstrip_rstrip s : lstrip (rstrip s) = rstrip (lstrip s).
Proof.
  induction s as [|a s IH]; [done|].
  simpl lstrip at 2. destruct (isspace a) eqn:Ha.
  - rewrite <- IH, rstrip_cons, Ha.
    destruct (String.eqb_spec (rstrip s) "") as [->|_]; [done|].
    simpl. by rewrite Ha.
  - rewrite rstrip_cons, Ha.
    destruct (String.eqb (rstrip s) ""); simpl; by rewrite Ha.
Qed.

Lemma strip_rstrip s : strip (rstrip s) = strip s.
Proof. unfold strip. by rewrite lstrip_rstrip, rstrip_idemp. Qed.

(** The first two parts of a trimmed line, trimmed, are the trimmed text
    before the first separator and the trimmed text between the first
    separator and the next. *)
Lemma split_strip_parts sep line :
  isspace sep = false ->
  contains (String sep "") line = true ->
  exists p0 p1 ps,
    split sep (strip line) = p0 :: p1 :: ps /\
    strip p0 = strip (before sep line) /\
    strip p1 = strip (before sep (after sep line)).
Proof.
  intros Hsep Hline.
  assert (contains (String sep "") (lstrip line) = true) as Hl
    by by rewrite contains_char_lstrip.
  assert (contains (String sep "") (strip line) = true) as Hs
    by (unfold strip; by rewrite contains_char_rstrip).
  exists (before sep (strip line)), (before sep (after sep (strip line))),
    (if contains (String sep "") (after sep (strip line))
     then split sep (after sep (after sep (strip line))) else []).
  split; [|split].
  - rewrite split_before_after, Hs.
    by rewrite (split_before_after sep (after sep (strip line))).
  - change (strip line) with (rstrip (lstrip line)).
    rewrite (before_rstrip sep Hsep _ Hl). unfold strip.
    by rewrite (lstrip_before_lstrip sep Hsep).
  - change (strip line) with (rstrip (lstrip line)).
    rewrite (after_rstrip sep Hsep _ Hl), (after_lstrip sep Hsep).
    destruct (contains (String sep "") (after sep line)) eqn:Ha.
    + by rewrite (before_rstrip sep Hsep _ Ha).
    + rewrite !before_no_sep; [apply strip_rstrip|done|].
      by rewrite (contains_char_rstrip sep Hsep).
Qed.

End StripFacts.

(** ** The TPM Register Reader *)

Section TpmRegisterReader.

Implicit Types (m : gmap string string) (lines : list string).

(** A turn of the loop inserts the entry of the line, if it is one. *)
Lemma tpm_line_step_entry m line :
  tpm_line_step m line =
  if is_tpm_entry line then <[(tpm_entry line).1 := (tpm_entry line).2]> m else m.
Proof.
  unfold tpm_line_step, is_tpm_entry, tpm_entry.
  destruct (contains ":" line) eqn:Hc; [|done].
  destruct (contains "0x" line); [|done]. simpl.
  destruct (split_strip_parts colon line eq_refl Hc) as (p0 & p1 & ps & -> & -> & ->).
  done.
Qed.

Lemma tpm_loop_lookup lines m k v :
  fold_left tpm_line_step lines m !! k = Some v ->
  m !! k = Some v \/
  exists line, line ∈ lines /\ is_tpm_entry line = true /\ tpm_entry line = (k, v).
Proof.
  revert m; induction lines as [|line lines IH]; intros m; simpl; [by left|].
  intros [H|(l & Hin & Hl)]%IH.
  - rewrite tpm_line_step_entry in H.
    destruct (is_tpm_entry line) eqn:He; [|by left].
    destruct (decide ((tpm_entry line).1 = k)) as [Hk|Hk].
    + rewrite <- Hk, lookup_insert_eq in H. injection H as Hv.
      right. exists line. split; [left|]. split; [done|].
      by rewrite <- Hk, <- Hv.
    + rewrite lookup_insert_ne in H by done. by left.
  - right. exists l. split; [by right|done].
Qed.

Lemma tpm_loop_keys lines m k :
  is_Some (fold_left tpm_line_step lines m !! k) <->
  is_Some (m !! k) \/
  exists line, line ∈ lines /\ is_tpm_entry line = true /\ (tpm_entry line).1 = k.
Proof.
  revert m; induction lines as [|line lines IH]; intros m; simpl.
  - split; [by left|]. intros [H|(l & Hin & _)]; [done|]. by apply elem_of_nil in Hin.
  - rewrite IH, tpm_line_step_entry. split.
    + intros [H|(l & Hin & Hl)].
      * destruct (is_tpm_entry line) eqn:He; [|by left].
        destruct (decide ((tpm_entry line).1 = k)) as [Hk|Hk].
        -- right. exists line. split; [left|done].
        -- rewrite lookup_insert_ne in H by done. by left.
      * right. exists l. split; [by right|done].
    + intros [H|(l & Hin & He & Hk)].
      * left. destruct (is_tpm_entry line); [|done].
        destruct (decide ((tpm_entry line).1 = k)) as [<-|Hk].
        -- rewrite lookup_insert_eq. by eexists.
        -- by rewrite lookup_insert_ne.
      * apply elem_of_cons in Hin as [->|Hin].
        -- left. rewrite He, <- Hk, lookup_insert_eq. by eexists.
        -- right. by exists l.
Qed.

Lemma get_tpm_pcr_values_ok text :
  get_tpm_pcr_values (Ok text) = Ok (fold_left tpm_line_step (split newline text) ∅).
Proof. done. Qed.




(** The text of well-formed lines has no separator and no space. *)
Lemma all_chars_impl (p q : ascii -> bool) s :
  (forall c, p c = true -> q c = true) -> all_chars p s = true -> all_chars q s = true.
Proof.
  intros Hpq. induction s as [|a s IH]; simpl; [done|].
  intros [Ha Hs]%andb_true_iff. by rewrite (Hpq a Ha), IH.
Qed.

Lemma contains_char_all sep (p : ascii -> bool) s :
  p sep = false -> all_chars p s = true -> contains (String sep "") s = false.
Proof.
  intros Hsep. induction s as [|a s IH]; [done|].
  rewrite contains_char_cons. simpl. intros [Ha Hs]%andb_true_iff.
  rewrite (IH Hs), orb_false_r.
  destruct (Ascii.eqb_spec sep a) as [->|]; [congruence|done].
Qed.

Lemma contains_char_app sep a b :
  contains (String sep "") (a +:+ b) =
  contains (String sep "") a || contains (String sep "") b.
Proof.
  induction a as [|x a IH]; [done|].
  change (String x a +:+ b) with (String x (a +:+ b)).
  by rewrite !contains_char_cons, IH, orb_assoc.
Qed.

Lemma before_app_sep sep a b :
  contains (String sep "") a = false -> before sep (a +:+ String sep b) = a.
Proof.
  induction a as [|x a IH]; simpl before.
  - intros _. simpl. by rewrite Ascii.eqb_refl.
  - rewrite contains_char_cons, (Ascii.eqb_sym sep x).
    intros [Hx Ha]%orb_false_iff. simpl. by rewrite Hx, IH.
Qed.

Lemma after_app_sep sep a b :
  contains (String sep "") a = false -> after sep (a +:+ String sep b) = b.
Proof.
  induction a as [|x a IH].
  - intros _. simpl. by rewrite Ascii.eqb_refl.
  - rewrite contains_char_cons, (Ascii.eqb_sym sep x).
    intros [Hx Ha]%orb_false_iff. simpl. by rewrite Hx, IH.
Qed.

Lemma split_no_sep sep s : contains (String sep "") s = false -> split sep s = [s].
Proof. intros H. by rewrite split_before_after, H, before_no_sep. Qed.

Lemma split_app_sep sep a b :
  contains (String sep "") a = false ->
  split sep (a +:+ String sep b) = a :: split sep b.
Proof.
  intros Ha. rewrite split_before_after, before_app_sep, after_app_sep by done.
  rewrite contains_char_app, contains_char_cons, Ascii.eqb_refl.
  by rewrite orb_true_r.
Qed.

Lemma lstrip_no_space s :
  all_chars (fun c => negb (isspace c)) s = true -> lstrip s = s.
Proof.
  destruct s as [|a s]; [done|]. simpl.
  intros [Ha _]%andb_true_iff. apply negb_true_iff in Ha. by rewrite Ha.
Qed.

Lemma rstrip_no_space s :
  all_chars (fun c => negb (isspace c)) s = true -> rstrip s = s.
Proof.
  induction s as [|a s IH]; [done|]. simpl.
  intros [Ha Hs]%andb_true_iff. apply negb_true_iff in Ha.
  rewrite (IH Hs), Ha. by destruct s.
Qed.

Lemma strip_no_space s :
  all_chars (fun c => negb (isspace c)) s = true -> strip s = s.
Proof. intros H. unfold strip. by rewrite (lstrip_no_space s H), rstrip_no_space. Qed.

Lemma isdigit_ishex c : isdigit c = true -> ishex c = true.
Proof. unfold ishex. by intros ->. Qed.

Lemma ishex_not_space c : ishex c = true -> negb (isspace c) = true.
Proof. destruct c as [[] [] [] [] [] [] [] []]; done. Qed.

Lemma all_chars_hex_no_space s :
  all_chars ishex s = true -> all_chars (fun c => negb (isspace c)) s = true.
Proof. apply all_chars_impl, ishex_not_space. Qed.

(** A well-formed line is a register entry, with label [n] and value
    [0xHEX]. *)
Lemma pcr_line_entry n hex :
  all_chars isdigit n = true -> all_chars ishex hex = true ->
  is_tpm_entry (pcr_line n hex) = true /\
  tpm_entry (pcr_line n hex) = (n, "0x" +:+ hex) /\
  contains (String newline "") (pcr_line n hex) = false.
Proof.
  intros Hn Hh.
  apply (all_chars_impl _ _ _ isdigit_ishex) in Hn.
  assert (contains (String colon "") n = false) as Hcn
    by by apply (contains_char_all colon ishex).
  assert (contains (String colon "") (" 0x" +:+ hex) = false) as Hch
    by by apply (contains_char_all colon ishex hex).
  split; [|split].
  - unfold is_tpm_entry, pcr_line. apply andb_true_iff. split.
    + apply (contains_app ":" n (" 0x" +:+ hex)).
    + replace (n +:+ ": 0x" +:+ hex) with ((n +:+ ": ") +:+ "0x" +:+ hex)
        by by rewrite append_assoc.
      apply contains_app.
  - unfold tpm_entry, pcr_line.
    change (n +:+ ": 0x" +:+ hex) with (n +:+ String colon (" 0x" +:+ hex)).
    rewrite before_app_sep, after_app_sep, before_no_sep by done.
    rewrite (strip_no_space n) by by apply all_chars_hex_no_space.
    f_equal. unfold strip. change (lstrip (" 0x" +:+ hex)) with ("0x" +:+ hex).
    apply rstrip_no_space. simpl. by apply all_chars_hex_no_space.
  - unfold pcr_line. rewrite contains_char_app.
    rewrite (contains_char_all newline ishex n) by done.
    by apply (contains_char_all newline ishex hex).
Qed.

(** C7, as the code has it: for output that was read, a label is in the
    table exactly when a line with a colon and [0x] has it as the trimmed
    text before its first colon, and the value stored under a label is the
    trimmed text between the first colon of such a line and its next colon
    (or the end of the line); two well-formed lines give exactly their two
    entries and no [error] key. *)
Theorem get_tpm_pcr_values_entries :
  (forall text, exists m,
     get_tpm_pcr_values (Ok text) = Ok m /\
     (forall k, is_Some (m !! k) <->
        exists line, line ∈ split newline text /\ is_tpm_entry line = true /\
                     (tpm_entry line).1 = k) /\
     (forall k v, m !! k = Some v ->
        exists line, line ∈ split newline text /\ is_tpm_entry line = true /\
                     tpm_entry line = (k, v))) /\
  (forall n1 hex1 n2 hex2,
     all_chars isdigit n1 = true -> all_chars ishex hex1 = true ->
     all_chars isdigit n2 = true -> all_chars ishex hex2 = true ->
     exists m,
       get_tpm_pcr_values (Ok (pcr_line n1 hex1 +:+ String newline (pcr_line n2 hex2))) = Ok m /\
       m = <[n2 := "0x" +:+ hex2]> {[n1 := "0x" +:+ hex1]} /\
       m !! "error" = None /\
       (n1 <> n2 -> size m = 2)).
Proof.
  split.
  - intros text. eexists. split; [apply get_tpm_pcr_values_ok|]. split.
    + intros k. rewrite tpm_loop_keys, lookup_empty. split.
      * intros [H|H]; [by destruct H|done].
      * by right.
    + intros k v [H|H]%tpm_loop_lookup; [by rewrite lookup_empty in H|done].
  - intros n1 hex1 n2 hex2 Hn1 Hh1 Hn2 Hh2.
    destruct (pcr_line_entry n1 hex1 Hn1 Hh1) as (He1 & Ht1 & Hl1).
    destruct (pcr_line_entry n2 hex2 Hn2 Hh2) as (He2 & Ht2 & Hl2).
    eexists. split; [apply get_tpm_pcr_values_ok|].
    rewrite split_app_sep, split_no_sep by done. simpl.
    rewrite !tpm_line_step_entry, He1, He2, Ht1, Ht2. simpl.
    split; [done|]. split.
    + rewrite !lookup_insert_ne, lookup_empty; [done| |]; by intros ->.
    + intros Hne. rewrite !map_size_insert_None, map_size_empty; [done|done|].
      by rewrite lookup_insert_ne.
Qed.

Lemma get_tpm_pcr_values_entries_witness :
  exists m,
    get_tpm_pcr_values (Ok (pcr_line "0" "A1" +:+ String newline (pcr_line "1" "b2"))) = Ok m /\
    m = <["1" := "0xb2"]> {["0" := "0xA1"]} /\
    m !! "error" = None /\
    ("0" <> "1" -> size m = 2).
Proof.
  apply (proj2 get_tpm_pcr_values_entries "0" "A1" "1" "b2"); reflexivity.
Defined.

(** C7 as the specification words it fails: the value of a line with a
    second colon is cut there, and is not all that follows the first. *)
Lemma tpm_entry_not_by_spec :
  is_tpm_entry "0 : 0x12:34" = true /\
  get_tpm_pcr_values (Ok "0 : 0x12:34") = Ok {["0" := "0x12"]} /\
  tpm_entry_by_spec "0 : 0x12:34" = ("0", "0x12:34") /\
  get_tpm_pcr_values (Ok "0 : 0x12:34") <>
    Ok (<[(tpm_entry_by_spec "0 : 0x12:34").1 := (tpm_entry_by_spec "0 : 0x12:34").2]> ∅).
Proof.
  split; [reflexivity|]. split; [reflexivity|]. split; [reflexivity|].
  intros [=].
Qed.

End TpmRegisterReader.

(** ** The GPU Confidential-Compute Inspector *)

Section GpuInspector.

(** [line.split(':')[1]] is there when the line has a colon: it is the text
    between the first colon and the next. *)
Lemma split_colon_second line :
  nth_error (split colon line) 1 =
  if contains ":" line then Some (before colon (after colon line)) else None.
Proof.
  rewrite split_before_after. change (String colon "") with ":".
  destruct (contains ":" line); [|done].
  by rewrite split_before_after.
Qed.

Lemma gpu_model_loop_spec lines r :
  gpu_model_loop lines r =
  match first_product_name lines with
  | None => (Ok tt, r)
  | Some line =>
      if contains ":" line
      then (Ok tt, set_gpu_model (strip (before colon (after colon line))) r)
      else (Raise (Exn IndexError "list index out of range"), r)
  end.
Proof.
  induction lines as [|line lines IH]; [done|].
  unfold first_product_name in *. cbn [gpu_model_loop List.find].
  destruct (contains "Product Name" line); [|done].
  rewrite split_colon_second. by destruct (contains ":" line).
Qed.

Lemma get_gpu_tee_status_missing e :
  is_FileNotFoundError e = true -> get_gpu_tee_status (Raise e) = Ok gpu_initial.
Proof. intros H. unfold get_gpu_tee_status. simpl. by rewrite H. Qed.

Lemma get_gpu_tee_status_ok text :
  exists r,
    get_gpu_tee_status (Ok text) = Ok r /\
    gpu_detected r = true /\
    gpu_tee_verified r = contains "Confidential Computing" text /\
    nvidia_cc_mode r = (if contains "Confidential Computing" text then "on" else "off") /\
    gpu_model r =
      match first_product_name (split newline text) with
      | Some line =>
          if contains ":" line then Some (strip (before colon (after colon line))) else None
      | None => None
      end /\
    error r =
      match first_product_name (split newline text) with
      | Some line =>
          if contains ":" line then None else Some "list index out of range"
      | None => None
      end.
Proof.
  unfold get_gpu_tee_status, gpu_try. rewrite gpu_model_loop_spec.
  destruct (first_product_name (split newline text)) as [line|];
    [destruct (contains ":" line)|];
    destruct (contains "Confidential Computing" text); simpl; eexists; split; done.
Qed.

(** C8: when the tool is missing the status is not detected, not verified,
    mode [unknown], without model and without error; when the tool ran the
    GPU is detected, it is verified and the mode is [on] exactly when the
    output has [Confidential Computing], else the mode is [off], and the
    model is taken from the first line with [Product Name]; the output with
    the marker and the line [Product Name: H100] gives the model [H100]. *)
Theorem get_gpu_tee_status_cases :
  (forall e, is_FileNotFoundError e = true ->
     get_gpu_tee_status (Raise e) =
     Ok {| gpu_detected := false; gpu_tee_verified := false; nvidia_cc_mode := "unknown";
           gpu_model := None; error := None |}) /\
  (forall text, exists r,
     get_gpu_tee_status (Ok text) = Ok r /\
     gpu_detected r = true /\
     gpu_tee_verified r = contains "Confidential Computing" text /\
     nvidia_cc_mode r = (if contains "Confidential Computing" text then "on" else "off") /\
     gpu_model r =
       match first_product_name (split newline text) with
       | Some line =>
           if contains ":" line then Some (strip (before colon (after colon line))) else None
       | None => None
       end) /\
  get_gpu_tee_status
    (Ok ("CC status: Confidential Computing" +:+ String newline "Product Name: H100")) =
    Ok {| gpu_detected := true; gpu_tee_verified := true; nvidia_cc_mode := "on";
          gpu_model := Some "H100"; error := None |}.
Proof.
  split; [exact get_gpu_tee_status_missing|]. split; [|reflexivity].
  intros text. destruct (get_gpu_tee_status_ok text) as (r & H & Hd & Hv & Hm & Hg & _).
  by exists r.
Qed.

Lemma get_gpu_tee_status_cases_witness :
  get_gpu_tee_status (Raise (Exn FileNotFoundError "No such file: nvidia-smi")) =
  Ok {| gpu_detected := false; gpu_tee_verified := false; nvidia_cc_mode := "unknown";
        gpu_model := None; error := None |}.
Proof.
  apply (proj1 get_gpu_tee_status_cases). reflexivity.
Defined.

(** C9, as the code has it: when the call of the tool fails otherwise than
    by a missing tool, the error text is recorded and the status stays not
    detected, not verified, mode [unknown]. *)
Theorem get_gpu_tee_status_call_failure e :
  is_FileNotFoundError e = false -> is_Exception e = true ->
  get_gpu_tee_status (Raise e) =
  Ok {| gpu_detected := false; gpu_tee_verified := false; nvidia_cc_mode := "unknown";
        gpu_model := None; error := Some (exn_str e) |}.
Proof. intros Hf He. unfold get_gpu_tee_status. simpl. by rewrite Hf, He. Qed.

Lemma get_gpu_tee_status_call_failure_witness :
  get_gpu_tee_status (Raise (Exn TimeoutExpired "timed out after 10 seconds")) =
  Ok {| gpu_detected := false; gpu_tee_verified := false; nvidia_cc_mode := "unknown";
        gpu_model := None; error := Some "timed out after 10 seconds" |}.
Proof.
  apply (get_gpu_tee_status_call_failure (Exn TimeoutExpired "timed out after 10 seconds"));
    reflexivity.
Defined.

(** C9 as the specification words it fails: a failure after the tool ran (a
    [Product Name] line without a colon) records its error on a status that
    is already detected. *)
Lemma get_gpu_tee_status_failure_detected :
  gpu_try (Ok "Product Name") gpu_initial =
    (Raise (Exn IndexError "list index out of range"),
     {| gpu_detected := true; gpu_tee_verified := false; nvidia_cc_mode := "off";
        gpu_model := None; error := None |}) /\
  is_FileNotFoundError (Exn IndexError "list index out of range") = false /\
  get_gpu_tee_status (Ok "Product Name") =
    Ok {| gpu_detected := true; gpu_tee_verified := false; nvidia_cc_mode := "off";
          gpu_model := None; error := Some "list index out of range" |} /\
  ~ (forall run e r,
       gpu_try run gpu_initial = (Raise e, r) ->
       is_FileNotFoundError e = false -> is_Exception e = true ->
       exists st, get_gpu_tee_status run = Ok st /\
                  error st = Some (exn_str e) /\ gpu_detected st = false).
Proof.
  split; [reflexivity|]. split; [reflexivity|]. split; [reflexivity|].
  intros H.
  destruct (H (Ok "Product Name") (Exn IndexError "list index out of range") _
              eq_refl eq_refl eq_refl) as (st & Hst & _ & Hd).
  injection Hst as <-. discriminate Hd.
Qed.

End GpuInspector.

(** ** The Attestation Aggregator *)

Section Aggregator.

(** When each collector returns, the request goes on to send the headers
    and to write the composed response. *)
Lemma handle_attestation_ok env platform tee_dmesg vm_size azure tpm gpu_status :
  get_tee_platform (dmesg_platform env) = Ok platform ->
  get_tee_dmesg_lines (dmesg_evidence env) = Ok tee_dmesg ->
  get_vm_size (environ_VM_SIZE env) (curl_vm_size env) = Ok vm_size ->
  get_azure_attestation (json_loads env) (curl_attested_document env) = Ok azure ->
  get_tpm_pcr_values (tpm2_pcrread env) = Ok tpm ->
  get_gpu_tee_status (nvidia_smi_q env) = Ok gpu_status ->
  handle_attestation env =
  (_ ← send_headers env 200 attestation_headers;
   _ ← write_body env
         (AttestationBody
            (compose_response platform tee_dmesg vm_size azure tpm (utcnow_isoformat env)
               gpu_status));
   Ok (attestation_reply
         (compose_response platform tee_dmesg vm_size azure tpm (utcnow_isoformat env)
            gpu_status))).
Proof.
  intros Hp Hd Hv Ha Ht Hg. unfold handle_attestation.
  rewrite Hp, Hd, Hv, Ha, Ht, Hg. simpl.
  unfold attestation_reply, compose_response, Response.add_gpu, attestation_headers. simpl.
  by destruct (gpu_detected gpu_status).
Qed.

Lemma handle_attestation_sent env platform tee_dmesg vm_size azure tpm gpu_status :
  get_tee_platform (dmesg_platform env) = Ok platform ->
  get_tee_dmesg_lines (dmesg_evidence env) = Ok tee_dmesg ->
  get_vm_size (environ_VM_SIZE env) (curl_vm_size env) = Ok vm_size ->
  get_azure_attestation (json_loads env) (curl_attested_document env) = Ok azure ->
  get_tpm_pcr_values (tpm2_pcrread env) = Ok tpm ->
  get_gpu_tee_status (nvidia_smi_q env) = Ok gpu_status ->
  send_headers env 200 attestation_headers = Ok tt ->
  write_body env
    (AttestationBody
       (compose_response platform tee_dmesg vm_size azure tpm (utcnow_isoformat env)
          gpu_status)) = Ok tt ->
  handle_attestation env =
  Ok (attestation_reply
        (compose_response platform tee_dmesg vm_size azure tpm (utcnow_isoformat env)
           gpu_status)).
Proof.
  intros Hp Hd Hv Ha Ht Hg Hs Hw.
  rewrite (handle_attestation_ok env _ _ _ _ _ _ Hp Hd Hv Ha Ht Hg), Hs. simpl.
  by rewrite Hw.
Qed.

Lemma handle_attestation_inv env reply :
  handle_attestation env = Ok reply ->
  exists platform tee_dmesg vm_size azure tpm gpu_status,
    get_tee_platform (dmesg_platform env) = Ok platform /\
    get_tee_dmesg_lines (dmesg_evidence env) = Ok tee_dmesg /\
    get_vm_size (environ_VM_SIZE env) (curl_vm_size env) = Ok vm_size /\
    get_azure_attestation (json_loads env) (curl_attested_document env) = Ok azure /\
    get_tpm_pcr_values (tpm2_pcrread env) = Ok tpm /\
    get_gpu_tee_status (nvidia_smi_q env) = Ok gpu_status /\
    reply = attestation_reply
              (compose_response platform tee_dmesg vm_size azure tpm (utcnow_isoformat env)
                 gpu_status).
Proof.
  intros H.
  destruct (get_tee_platform (dmesg_platform env)) as [p|] eqn:Hp;
    [|unfold handle_attestation in H; rewrite Hp in H; discriminate].
  destruct (get_tee_dmesg_lines (dmesg_evidence env)) as [d|] eqn:Hd;
    [|unfold handle_attestation in H; rewrite Hp, Hd in H; discriminate].
  destruct (get_vm_size (environ_VM_SIZE env) (curl_vm_size env)) as [v|] eqn:Hv;
    [|unfold handle_attestation in H; rewrite Hp, Hd, Hv in H; discriminate].
  destruct (get_azure_attestation (json_loads env) (curl_attested_document env))
    as [a|] eqn:Ha;
    [|unfold handle_attestation in H; rewrite Hp, Hd, Hv, Ha in H; discriminate].
  destruct (get_tpm_pcr_values (tpm2_pcrread env)) as [t|] eqn:Ht;
    [|unfold handle_attestation in H; rewrite Hp, Hd, Hv, Ha, Ht in H; discriminate].
  destruct (get_gpu_tee_status (nvidia_smi_q env)) as [g|] eqn:Hg;
    [|unfold handle_attestation in H; rewrite Hp, Hd, Hv, Ha, Ht, Hg in H; discriminate].
  rewrite (handle_attestation_ok env p d v a t g) in H by done.
  destruct (send_headers env 200 attestation_headers) as [[]|]; [|discriminate].
  simpl in H.
  destruct (write_body env _) as [[]|]; [|discriminate].
  injection H as <-. by exists p, d, v, a, t, g.
Qed.

Lemma in_list_platform platform :
  in_list platform ["Intel-TDX"; "AMD-SEV-SNP"] = true <->
  platform = "Intel-TDX" \/ platform = "AMD-SEV-SNP".
Proof.
  unfold in_list. simpl. rewrite orb_false_r, orb_true_iff, !String.eqb_eq. done.
Qed.

(** C1: in every attestation response, [tee_verified] is true exactly when
    the platform is [Intel-TDX] or [AMD-SEV-SNP]; the platform is what the
    Platform Detector returned, and two responses with the same platform
    have the same [tee_verified], whatever the other collectors gave. *)
Theorem tee_verified_by_platform :
  (forall env reply,
     handle_attestation env = Ok reply ->
     exists response,
       body reply = AttestationBody response /\
       get_tee_platform (dmesg_platform env) = Ok (Response.platform response) /\
       (Response.tee_verified response = true <->
        Response.platform response = "Intel-TDX" \/
        Response.platform response = "AMD-SEV-SNP")) /\
  (forall env1 env2 reply1 reply2 response1 response2,
     handle_attestation env1 = Ok reply1 -> body reply1 = AttestationBody response1 ->
     handle_attestation env2 = Ok reply2 -> body reply2 = AttestationBody response2 ->
     Response.platform response1 = Response.platform response2 ->
     Response.tee_verified response1 = Response.tee_verified response2).
Proof.
  split.
  - intros env reply (p & d & v & a & t & g & Hp & _ & _ & _ & _ & _ & ->)%handle_attestation_inv.
    eexists. split; [done|]. split; [done|]. apply in_list_platform.
  - intros env1 env2 reply1 reply2 r1 r2
      (p1 & d1 & v1 & a1 & t1 & g1 & _ & _ & _ & _ & _ & _ & ->)%handle_attestation_inv [= <-]
      (p2 & d2 & v2 & a2 & t2 & g2 & _ & _ & _ & _ & _ & _ & ->)%handle_attestation_inv [= <-].
    simpl. by intros ->.
Qed.

Lemma handle_attestation_all_failing : handle_attestation env_all_failing = Ok (attestation_reply response_all_failing).
Proof. reflexivity. Qed.

Lemma handle_attestation_tdx_gpu : handle_attestation env_tdx_gpu = Ok (attestation_reply response_tdx_gpu).
Proof. reflexivity. Qed.

Lemma handle_attestation_tdx_bare : handle_attestation env_tdx_bare = Ok (attestation_reply response_tdx_bare).
Proof. reflexivity. Qed.

Lemma tee_verified_by_platform_witness :
  (exists response,
     body (attestation_reply response_tdx_gpu) = AttestationBody response /\
     get_tee_platform (dmesg_platform env_tdx_gpu) = Ok (Response.platform response) /\
     (Response.tee_verified response = true <->
      Response.platform response = "Intel-TDX" \/
      Response.platform response = "AMD-SEV-SNP")) /\
  Response.tee_verified response_tdx_gpu = Response.tee_verified response_tdx_bare.
Proof.
  split.
  - apply (proj1 tee_verified_by_platform env_tdx_gpu (attestation_reply response_tdx_gpu)).
    reflexivity.
  - apply (proj2 tee_verified_by_platform env_tdx_gpu env_tdx_bare
             (attestation_reply response_tdx_gpu) (attestation_reply response_tdx_bare));
      reflexivity.
Defined.

(** *** No collector lets a failure through *)

Lemma try_except_returns {A} (body : result A) (h : exn -> A) :
  ordinary body = true -> exists v, try_except body (except_Exception h) = Ok v.
Proof.
  destruct body as [a|e]; simpl; intros H; [by exists a|].
  unfold except_Exception. rewrite H. by eexists.
Qed.

Lemma ordinary_bind {A B} (m : result A) (f : A -> result B) :
  ordinary m = true -> (forall a, ordinary (f a) = true) -> ordinary (m ≫= f) = true.
Proof. destruct m as [a|e]; simpl; [intros _ H; apply H|done]. Qed.

Lemma ordinary_py_get data key default : ordinary (py_get data key default) = true.
Proof. by destruct data. Qed.

Lemma ordinary_py_len v : ordinary (py_len v) = true.
Proof. by destruct v. Qed.

Lemma ordinary_py_slice_to n v : ordinary (py_slice_to n v) = true.
Proof. by destruct v. Qed.

Lemma ordinary_py_add_str v s : ordinary (py_add_str v s) = true.
Proof. by destruct v. Qed.

Lemma get_tee_platform_returns run :
  ordinary run = true -> exists platform, get_tee_platform run = Ok platform.
Proof.
  intros H. apply try_except_returns, ordinary_bind; [done|].
  intros dmesg. by repeat case_match.
Qed.

Lemma get_tee_dmesg_lines_returns run :
  ordinary run = true -> exists lines, get_tee_dmesg_lines run = Ok lines.
Proof. intros H. by apply try_except_returns, ordinary_bind. Qed.

Lemma get_vm_size_returns environ run :
  ordinary run = true -> exists vm_size, get_vm_size environ run = Ok vm_size.
Proof. intros H. by apply try_except_returns, ordinary_bind. Qed.

Lemma get_azure_attestation_returns loads run :
  ordinary run = true -> (forall text, ordinary (loads text) = true) ->
  exists azure, get_azure_attestation loads run = Ok azure.
Proof.
  intros H Hl. apply try_except_returns, ordinary_bind; [done|].
  intros text. apply ordinary_bind; [done|].
  intros data. apply ordinary_bind; [apply ordinary_py_get|].
  intros encoding. apply ordinary_bind; [apply ordinary_py_get|].
  intros sig. apply ordinary_bind; [apply ordinary_py_len|].
  intros n. apply ordinary_bind; [|done].
  destruct (Nat.ltb 200 n); [|apply ordinary_py_get].
  apply ordinary_bind; [apply ordinary_py_get|].
  intros sig'. apply ordinary_bind; [apply ordinary_py_slice_to|].
  intros head. apply ordinary_py_add_str.
Qed.

Lemma get_tpm_pcr_values_returns run :
  ordinary run = true -> exists table, get_tpm_pcr_values run = Ok table.
Proof.
  destruct run as [text|e]; simpl; intros H; [by eexists|].
  unfold get_tpm_pcr_values. simpl. rewrite H.
  destruct (is_FileNotFoundError e), (is_TimeoutExpired e); by eexists.
Qed.

Lemma gpu_try_ordinary run r : ordinary run = true -> ordinary (gpu_try run r).1 = true.
Proof.
  destruct run as [text|e]; [|done]. intros _. unfold gpu_try.
  rewrite gpu_model_loop_spec. by repeat case_match.
Qed.

Lemma get_gpu_tee_status_returns run :
  ordinary run = true -> exists gpu_status, get_gpu_tee_status run = Ok gpu_status.
Proof.
  intros H. apply (gpu_try_ordinary run gpu_initial) in H.
  unfold get_gpu_tee_status. destruct (gpu_try run gpu_initial) as [[[]|e] r]; simpl in *.
  - by eexists.
  - rewrite H. destruct (is_FileNotFoundError e); by eexists.
Qed.

(** On a host whose failures are ordinary, every collector returns, and
    the request is answered with the response composed from what they
    return once the headers and the body are written. *)
Lemma handle_attestation_returns env :
  env_ordinary env ->
  exists platform tee_dmesg vm_size azure tpm gpu_status,
    get_tee_platform (dmesg_platform env) = Ok platform /\
    get_tee_dmesg_lines (dmesg_evidence env) = Ok tee_dmesg /\
    get_vm_size (environ_VM_SIZE env) (curl_vm_size env) = Ok vm_size /\
    get_azure_attestation (json_loads env) (curl_attested_document env) = Ok azure /\
    get_tpm_pcr_values (tpm2_pcrread env) = Ok tpm /\
    get_gpu_tee_status (nvidia_smi_q env) = Ok gpu_status /\
    (send_headers env 200 attestation_headers = Ok tt ->
     write_body env
       (AttestationBody
          (compose_response platform tee_dmesg vm_size azure tpm (utcnow_isoformat env)
             gpu_status)) = Ok tt ->
     handle_attestation env =
       Ok (attestation_reply
             (compose_response platform tee_dmesg vm_size azure tpm (utcnow_isoformat env)
                gpu_status))).
Proof.
  intros (H1 & H2 & H3 & H4 & H5 & H6 & H7).
  destruct (get_tee_platform_returns _ H1) as [p Hp].
  destruct (get_tee_dmesg_lines_returns _ H2) as [d Hd].
  destruct (get_vm_size_returns (environ_VM_SIZE env) _ H3) as [v Hv].
  destruct (get_azure_attestation_returns _ _ H4 H5) as [a Ha].
  destruct (get_tpm_pcr_values_returns _ H6) as [t Ht].
  destruct (get_gpu_tee_status_returns _ H7) as [g Hg].
  exists p, d, v, a, t, g. repeat (split; [done|]).
  by apply handle_attestation_sent.
Qed.

(** *** How each collector encodes a failure of its call *)

Lemma get_vm_size_failure environ e :
  is_Exception e = true -> get_vm_size environ (Raise e) = Ok (default "Unknown" environ).
Proof. intros H. unfold get_vm_size, except_Exception. simpl. by rewrite H. Qed.

Lemma get_azure_attestation_failure loads e :
  is_Exception e = true -> get_azure_attestation loads (Raise e) = Ok (AzureError (exn_str e)).
Proof. intros H. unfold get_azure_attestation, except_Exception. simpl. by rewrite H. Qed.

Lemma get_azure_attestation_unparsable loads text e :
  loads text = Raise e -> is_Exception e = true ->
  get_azure_attestation loads (Ok text) = Ok (AzureError (exn_str e)).
Proof.
  intros Hl H. unfold get_azure_attestation, except_Exception. simpl.
  rewrite Hl. simpl. by rewrite H.
Qed.

Lemma get_tpm_pcr_values_raise e :
  is_Exception e = true ->
  get_tpm_pcr_values (Raise e) =
  Ok {["error" := if is_FileNotFoundError e then "tpm2-tools not installed"
                  else if is_TimeoutExpired e then "TPM read timeout"
                  else exn_str e]}.
Proof.
  intros H. unfold get_tpm_pcr_values. simpl. rewrite H.
  by destruct (is_FileNotFoundError e), (is_TimeoutExpired e).
Qed.

Lemma get_gpu_tee_status_raise e :
  is_Exception e = true ->
  get_gpu_tee_status (Raise e) =
  Ok (if is_FileNotFoundError e then gpu_initial else set_error (exn_str e) gpu_initial).
Proof.
  intros H. unfold get_gpu_tee_status. simpl. rewrite H.
  by destruct (is_FileNotFoundError e).
Qed.

Lemma env_all_failing_ordinary : env_ordinary env_all_failing.
Proof. repeat split; try reflexivity. Qed.

Lemma env_tdx_gpu_ordinary : env_ordinary env_tdx_gpu.
Proof. repeat split; try reflexivity. Qed.


Lemma env_tdx_gpu_output_ok : output_ok env_tdx_gpu.
Proof. by split. Qed.

(** C10: when the GPU Inspector reports a detected GPU without a model, the
    [gpu] field of the response is the text [NVIDIA-GPU]; and on a host
    whose failures are ordinary and whose client is answered such a
    response is indeed sent. *)
Theorem gpu_default_model :
  (forall env reply gpu_status,
     handle_attestation env = Ok reply ->
     get_gpu_tee_status (nvidia_smi_q env) = Ok gpu_status ->
     gpu_detected gpu_status = true -> gpu_model gpu_status = None ->
     exists response,
       body reply = AttestationBody response /\
       Response.gpu response = Some "NVIDIA-GPU") /\
  (forall env gpu_status,
     env_ordinary env -> output_ok env ->
     get_gpu_tee_status (nvidia_smi_q env) = Ok gpu_status ->
     gpu_detected gpu_status = true -> gpu_model gpu_status = None ->
     exists reply response,
       handle_attestation env = Ok reply /\
       body reply = AttestationBody response /\
       Response.gpu response = Some "NVIDIA-GPU").
Proof.
  assert (forall env reply gpu_status,
     handle_attestation env = Ok reply ->
     get_gpu_tee_status (nvidia_smi_q env) = Ok gpu_status ->
     gpu_detected gpu_status = true -> gpu_model gpu_status = None ->
     exists response,
       body reply = AttestationBody response /\
       Response.gpu response = Some "NVIDIA-GPU") as Hfirst.
  { intros env reply gpu_status
      (p & d & v & a & t & g & _ & _ & _ & _ & _ & Hg & ->)%handle_attestation_inv
      Hg' Hdet Hmodel.
    rewrite Hg in Hg'. injection Hg' as ->.
    eexists. split; [done|]. simpl. by rewrite Hdet, Hmodel. }
  split; [exact Hfirst|].
  intros env gpu_status Henv [Hsend Hwrite] Hg Hdet Hmodel.
  destruct (handle_attestation_returns env Henv)
    as (p & d & v & a & t & g & _ & _ & _ & _ & _ & _ & Hreply).
  specialize (Hreply (Hsend _ _) (Hwrite _)).
  destruct (Hfirst env _ gpu_status Hreply Hg Hdet Hmodel) as (response & Hb & Hgpu).
  by eexists _, response.
Qed.

Lemma gpu_default_model_witness :
  (exists response,
     body (attestation_reply response_tdx_gpu) = AttestationBody response /\
     Response.gpu response = Some "NVIDIA-GPU") /\
  (exists reply response,
     handle_attestation env_tdx_gpu = Ok reply /\
     body reply = AttestationBody response /\
     Response.gpu response = Some "NVIDIA-GPU").
Proof.
  split.
  - apply (proj1 gpu_default_model env_tdx_gpu (attestation_reply response_tdx_gpu)
             {| gpu_detected := true; gpu_tee_verified := false; nvidia_cc_mode := "off";
                gpu_model := None; error := None |}); reflexivity.
  - apply (proj2 gpu_default_model env_tdx_gpu
             {| gpu_detected := true; gpu_tee_verified := false; nvidia_cc_mode := "off";
                gpu_model := None; error := None |});
      [exact env_tdx_gpu_ordinary|exact env_tdx_gpu_output_ok|reflexivity..].
Defined.

End Aggregator.

(** * Further properties of the code *)

(** ** Trimmed text *)

Section TrimmedText.

Lemma lstrip_idemp s : lstrip (lstrip s) = lstrip s.
Proof.
  induction s as [|a s IH]; [done|]. simpl.
  destruct (isspace a) eqn:Ha; [done|]. simpl. by rewrite Ha.
Qed.

Lemma strip_idemp s : strip (strip s) = strip s.
Proof.
  unfold strip. by rewrite lstrip_rstrip, lstrip_idemp, rstrip_idemp.
Qed.

Lemma first_char_lstrip s c : first_char (lstrip s) = Some c -> isspace c = false.
Proof.
  induction s as [|a s IH]; [done|]. simpl.
  destruct (isspace a) eqn:Ha; [done|]. simpl. by intros [= <-].
Qed.

Lemma first_char_rstrip s c : first_char (rstrip s) = Some c -> first_char s = Some c.
Proof.
  destruct s as [|a s]; [done|]. rewrite rstrip_cons.
  destruct (String.eqb (rstrip s) ""); [|done].
  by destruct (isspace a).
Qed.

Lemma last_char_cons a s : s <> "" -> last_char (String a s) = last_char s.
Proof. by destruct s. Qed.

Lemma last_char_rstrip s c : last_char (rstrip s) = Some c -> isspace c = false.
Proof.
  induction s as [|a s IH]; [done|]. rewrite rstrip_cons.
  destruct (String.eqb_spec (rstrip s) "") as [Hr|Hr].
  - destruct (isspace a) eqn:Ha; [done|]. simpl. by intros [= <-].
  - by rewrite last_char_cons.
Qed.

(** Trimmed text neither starts nor ends with a space character. *)
Lemma strip_trimmed s c :
  first_char (strip s) = Some c \/ last_char (strip s) = Some c -> isspace c = false.
Proof.
  unfold strip. intros [H|H].
  - by apply first_char_rstrip, first_char_lstrip in H.
  - by apply last_char_rstrip in H.
Qed.

Lemma lstrip_blank s : all_chars isspace s = true -> lstrip s = "".
Proof.
  induction s as [|a s IH]; [done|]. simpl.
  intros [Ha Hs]%andb_true_iff. by rewrite Ha, IH.
Qed.

Lemma strip_blank s : all_chars isspace s = true -> strip s = "".
Proof. intros H. unfold strip. by rewrite lstrip_blank. Qed.

End TrimmedText.

(** ** The VM size *)

Section VmSize.

Lemma lstrip_decompose s :
  exists lead, s = lead +:+ lstrip s /\ all_chars isspace lead = true.
Proof.
  induction s as [|a s (lead & IH & Hlead)]; [by exists ""|]. simpl.
  destruct (isspace a) eqn:Ha.
  - exists (String a lead). simpl. by rewrite <- IH, Ha.
  - by exists "".
Qed.

Lemma rstrip_decompose s :
  exists trail, s = rstrip s +:+ trail /\ all_chars isspace trail = true.
Proof.
  induction s as [|a s (trail & IH & Htrail)]; [by exists ""|]. rewrite rstrip_cons.
  destruct (String.eqb_spec (rstrip s) "") as [Hr|Hr].
  - rewrite Hr in IH. simpl in IH. subst trail.
    destruct (isspace a) eqn:Ha.
    + exists (String a s). simpl. by rewrite Ha.
    + by exists s.
  - exists trail. simpl. by rewrite <- IH.
Qed.

(** A text is its trimmed text between two blank texts. *)
Lemma strip_decompose s :
  exists lead trail,
    s = lead +:+ strip s +:+ trail /\
    all_chars isspace lead = true /\ all_chars isspace trail = true.
Proof.
  destruct (lstrip_decompose s) as (lead & Hs & Hlead).
  destruct (rstrip_decompose (lstrip s)) as (trail & Hl & Htrail).
  exists lead, trail. unfold strip. by rewrite <- Hl.
Qed.

(** X1: when the metadata call returns, the VM size is its output without
    the space characters around it, whatever [VM_SIZE] is: the output is
    the VM size between two blank texts, and the VM size neither starts nor
    ends with a space character; trimming it again changes nothing, and
    blank output gives the empty text. *)
Theorem get_vm_size_trimmed environ text :
  exists vm_size lead trail,
    get_vm_size environ (Ok text) = Ok vm_size /\
    text = lead +:+ vm_size +:+ trail /\
    all_chars isspace lead = true /\ all_chars isspace trail = true /\
    (forall c, first_char vm_size = Some c \/ last_char vm_size = Some c ->
               isspace c = false) /\
    get_vm_size None (Ok text) = Ok vm_size /\
    strip vm_size = vm_size /\
    (all_chars isspace text = true -> vm_size = "").
Proof.
  destruct (strip_decompose text) as (lead & trail & Htext & Hlead & Htrail).
  exists (strip text), lead, trail. repeat (split; [done|]).
  split; [apply strip_trimmed|]. split; [done|].
  split; [apply strip_idemp|apply strip_blank].
Qed.

Lemma get_vm_size_trimmed_witness :
  (exists vm_size,
     get_vm_size (Some "Standard_X") (Ok (String newline " ")) = Ok vm_size /\
     vm_size = "") /\
  isspace "S" = false.
Proof.
  split.
  - destruct (get_vm_size_trimmed (Some "Standard_X") (String newline " "))
      as (vm_size & _ & _ & H & _ & _ & _ & _ & _ & _ & Hblank).
    exists vm_size. split; [exact H|]. apply Hblank. reflexivity.
  - destruct (get_vm_size_trimmed None (" Standard_DC4es_v5" +:+ String newline ""))
      as (vm_size & _ & _ & H & _ & _ & _ & Hends & _).
    injection H as <-. apply Hends. left. reflexivity.
Defined.

End VmSize.

(** ** Routing *)

Section Routing.







End Routing.

(** ** The status of the GPU *)

Section GpuStatusFacts.

(** X3: whatever the tool answers, the status of the GPU is consistent.  A
    GPU that is not detected is not verified, has mode [unknown] and no
    model; a detected one has mode [on] or [off]; it is verified exactly
    when the mode is [on]; and a status never has a model and an error. *)
Theorem get_gpu_tee_status_invariant run r :
  get_gpu_tee_status run = Ok r ->
  (gpu_detected r = false ->
   gpu_tee_verified r = false /\ nvidia_cc_mode r = "unknown" /\ gpu_model r = None) /\
  (gpu_detected r = true -> nvidia_cc_mode r = "on" \/ nvidia_cc_mode r = "off") /\
  (gpu_tee_verified r = true <-> nvidia_cc_mode r = "on") /\
  (gpu_model r = None \/ error r = None).
Proof.
  destruct run as [text|e].
  - destruct (get_gpu_tee_status_ok text) as (r' & -> & Hd & Hv & Hm & Hg & He).
    intros [= <-]. rewrite Hd, Hv, Hm, Hg, He.
    destruct (contains "Confidential Computing" text);
      destruct (first_product_name (split newline text)) as [line|];
      try destruct (contains ":" line); (repeat split); try done; tauto.
  - unfold get_gpu_tee_status. simpl.
    destruct (is_FileNotFoundError e); [|destruct (is_Exception e)];
      intros [= <-]; simpl; (repeat split); try done; tauto.
Qed.

Lemma get_gpu_tee_status_invariant_witness :
  (false = false -> false = false /\ "unknown" = "unknown" /\ (None : option string) = None) /\
  (false = true -> "unknown" = "on" \/ "unknown" = "off") /\
  (false = true <-> "unknown" = "on") /\
  ((None : option string) = None \/ Some "timed out" = (None : option string)).
Proof.
  apply (get_gpu_tee_status_invariant (Raise (Exn TimeoutExpired "timed out"))
           {| gpu_detected := false; gpu_tee_verified := false; nvidia_cc_mode := "unknown";
              gpu_model := None; error := Some "timed out" |}).
  reflexivity.
Defined.

End GpuStatusFacts.

(** ** The composed response *)

Section ResponseFacts.

(** X4: the three GPU keys of a response are all there or all absent.  They
    are absent exactly when the call of the GPU tool failed; when it
    returned, [gpu_tee_verified] tells whether its output has
    [Confidential Computing] and [nvidia_cc_mode] is [on] or [off]
    accordingly. *)
Theorem response_gpu_keys env reply :
  handle_attestation env = Ok reply ->
  exists response,
    body reply = AttestationBody response /\
    ((exists e, nvidia_smi_q env = Raise e) /\
     Response.gpu response = None /\
     Response.gpu_tee_verified response = None /\
     Response.nvidia_cc_mode response = None
     \/
     exists text model,
       nvidia_smi_q env = Ok text /\
       Response.gpu response = Some model /\
       Response.gpu_tee_verified response = Some (contains "Confidential Computing" text) /\
       Response.nvidia_cc_mode response =
         Some (if contains "Confidential Computing" text then "on" else "off")).
Proof.
  intros (p & d & v & a & t & g & _ & _ & _ & _ & _ & Hg & ->)%handle_attestation_inv.
  eexists. split; [done|]. simpl.
  destruct (nvidia_smi_q env) as [text|e] eqn:Hrun.
  - right. destruct (get_gpu_tee_status_ok text) as (r & Hr & Hd & Hv & Hm & _).
    rewrite Hr in Hg. injection Hg as <-. rewrite Hd, Hv, Hm. by eexists _, _.
  - left. split; [by eexists|].
    unfold get_gpu_tee_status in Hg. simpl in Hg.
    destruct (is_FileNotFoundError e); [|destruct (is_Exception e); [|done]];
      by injection Hg as <-.
Qed.

Lemma response_gpu_keys_witness :
  exists response,
    body (attestation_reply response_all_failing) = AttestationBody response /\
    ((exists e, nvidia_smi_q env_all_failing = Raise e) /\
     Response.gpu response = None /\
     Response.gpu_tee_verified response = None /\
     Response.nvidia_cc_mode response = None
     \/
     exists text model,
       nvidia_smi_q env_all_failing = Ok text /\
       Response.gpu response = Some model /\
       Response.gpu_tee_verified response = Some (contains "Confidential Computing" text) /\
       Response.nvidia_cc_mode response =
         Some (if contains "Confidential Computing" text then "on" else "off")).
Proof.
  apply (response_gpu_keys env_all_failing (attestation_reply response_all_failing)).
  reflexivity.
Defined.

Lemma get_tee_platform_range run platform :
  get_tee_platform run = Ok platform ->
  platform = "Intel-TDX" \/ platform = "AMD-SEV-SNP" \/ platform = "Unknown".
Proof.
  destruct run as [dmesg|e]; unfold get_tee_platform, except_Exception; simpl.
  - repeat case_match; intros [= <-]; tauto.
  - destruct (is_Exception e); [|done]. intros [= <-]. tauto.
Qed.

(** X5: the platform of a response is one of [Intel-TDX], [AMD-SEV-SNP] and
    [Unknown], and [tee_verified] is false exactly when it is [Unknown]; so
    it is false whenever the kernel log could not be read. *)
Theorem response_platform_range env reply :
  handle_attestation env = Ok reply ->
  exists response,
    body reply = AttestationBody response /\
    (Response.platform response = "Intel-TDX" \/
     Response.platform response = "AMD-SEV-SNP" \/
     Response.platform response = "Unknown") /\
    (Response.tee_verified response = false <-> Response.platform response = "Unknown") /\
    (forall e, dmesg_platform env = Raise e -> Response.tee_verified response = false).
Proof.
  intros (p & d & v & a & t & g & Hp & _ & _ & _ & _ & _ & ->)%handle_attestation_inv.
  eexists. split; [done|]. simpl.
  pose proof (get_tee_platform_range _ _ Hp) as Hr.
  split; [done|]. split.
  - destruct Hr as [-> | [-> | ->]]; by split.
  - intros e He. rewrite He in Hp.
    unfold get_tee_platform, except_Exception in Hp. simpl in Hp.
    destruct (is_Exception e); [|done]. by injection Hp as <-.
Qed.

Lemma response_platform_range_witness :
  exists response,
    body (attestation_reply response_all_failing) = AttestationBody response /\
    (Response.platform response = "Intel-TDX" \/
     Response.platform response = "AMD-SEV-SNP" \/
     Response.platform response = "Unknown") /\
    (Response.tee_verified response = false <-> Response.platform response = "Unknown") /\
    (forall e, dmesg_platform env_all_failing = Raise e ->
               Response.tee_verified response = false).
Proof.
  apply (response_platform_range env_all_failing (attestation_reply response_all_failing)).
  reflexivity.
Defined.

End ResponseFacts.

(** ** Exceptions that are not absorbed *)

Section Propagation.


Lemma bind_raises {A B} (m : result A) (f : A -> result B) e :
  m ≫= f = Raise e -> m = Raise e \/ exists a, m = Ok a /\ f a = Raise e.
Proof. destruct m as [a|e']; simpl; intros H; [right; exists a; split; [reflexivity|exact H]|left; congruence]. Qed.






End Propagation.

(** ** The platform and its evidence *)

Section PlatformEvidence.

Lemma contains_cons sub c s : contains sub s = true -> contains sub (String c s) = true.
Proof. intros H. simpl. rewrite H. apply orb_true_r. Qed.

Lemma startswith_before sep sub s :
  contains (String sep "") sub = false ->
  startswith sub s = true -> startswith sub (before sep s) = true.
Proof.
  revert s; induction sub as [|a sub IH]; intros s; [done|].
  rewrite contains_char_cons. intros [Ha Hsub]%orb_false_iff.
  destruct s as [|b s]; [done|]. simpl.
  intros [Hab Hs]%andb_true_iff. apply Ascii.eqb_eq in Hab as <-.
  rewrite (Ascii.eqb_sym a sep), Ha. simpl.
  by rewrite Ascii.eqb_refl, IH.
Qed.

(** A text without the separator that occurs in [s] occurs in a line of
    [s]. *)
Lemma contains_in_line sep sub s :
  contains (String sep "") sub = false ->
  contains sub s = true ->
  exists line, line ∈ split sep s /\ contains sub line = true.
Proof.
  intros Hsub. induction s as [|c s IH].
  - intros H. exists "". split; [left|done].
  - intros H. destruct (startswith sub (String c s)) eqn:Hstart.
    + exists (before sep (String c s)). split.
      * rewrite split_before_after. left.
      * by apply contains_startswith, startswith_before.
    + simpl in H. simpl in Hstart. rewrite Hstart in H. simpl in H.
      destruct (IH H) as (line & Hin & Hline).
      simpl. destruct (Ascii.eqb c sep).
      * exists line. split; [by right|done].
      * rewrite split_before_after in Hin |- *.
        apply elem_of_cons in Hin as [->|Hin].
        -- exists (String c (before sep s)). split; [left|by apply contains_cons].
        -- exists line. split; [by right|done].
Qed.

Lemma lower_char_newline c : Ascii.eqb (lower_char c) newline = Ascii.eqb c newline.
Proof. destruct c as [[] [] [] [] [] [] [] []]; reflexivity. Qed.

Lemma split_lower s : split newline (lower s) = map lower (split newline s).
Proof.
  induction s as [|c s IH]; [done|]. simpl.
  rewrite lower_char_newline, IH.
  destruct (Ascii.eqb c newline); [done|].
  by destruct (split newline s).
Qed.

Lemma keyword_line kw dmesg :
  kw ∈ tee_keywords ->
  contains (String newline "") kw = false ->
  contains kw (lower dmesg) = true ->
  exists line, line ∈ split newline dmesg /\ is_tee_line line = true.
Proof.
  intros Hkw Hnl H.
  destruct (contains_in_line newline kw _ Hnl H) as (line' & Hin & Hline).
  rewrite split_lower in Hin. apply list_elem_of_fmap in Hin as (line & -> & Hin).
  exists line. split; [done|].
  apply existsb_exists. exists kw. by rewrite <- list_elem_of_In.
Qed.

Lemma tee_lines_nonempty dmesg line :
  line ∈ split newline dmesg -> is_tee_line line = true ->
  exists l lines, get_tee_dmesg_lines (Ok dmesg) = Ok (l :: lines).
Proof.
  intros Hin Hline. rewrite get_tee_dmesg_lines_ok.
  assert (line ∈ List.filter is_tee_line (split newline dmesg)) as Hf
    by by apply list_elem_of_In, filter_In; rewrite <- list_elem_of_In.
  destruct (List.filter is_tee_line (split newline dmesg)) as [|l lines];
    [by apply elem_of_nil in Hf|].
  by eexists _, _.
Qed.

(** A log in which the Platform Detector finds a platform has a line that
    the Kernel Evidence Extractor keeps. *)
Lemma platform_has_evidence dmesg platform :
  get_tee_platform (Ok dmesg) = Ok platform -> platform <> "Unknown" ->
  exists l lines, get_tee_dmesg_lines (Ok dmesg) = Ok (l :: lines).
Proof.
  unfold get_tee_platform. simpl. rewrite intel_tdx_marker, sev_snp_marker.
  intros H Hp.
  assert (exists kw, kw ∈ tee_keywords /\ contains (String newline "") kw = false /\
                     contains kw (lower dmesg) = true) as (kw & Hkw & Hnl & Hc).
  { destruct (contains "tdx" (lower dmesg)) eqn:Htdx.
    { exists "tdx". split; [set_solver|done]. }
    destruct (contains "sev" (lower dmesg)) eqn:Hsev.
    { exists "sev". split; [set_solver|done]. }
    destruct (contains "Memory Encryption" dmesg) eqn:Hme.
    { exists "memory encryption". split; [set_solver|]. split; [done|].
      by apply (contains_lower "Memory Encryption"). }
    simpl in H. by injection H as <-. }
  destruct (keyword_line kw dmesg Hkw Hnl Hc) as (line & Hin & Hline).
  by apply (tee_lines_nonempty dmesg line).
Qed.

(** A log in which the Platform Detector finds a platform has a line with
    one of its markers, in any case; the extractor's filter keeps it. *)
Lemma platform_marker_line dmesg platform :
  get_tee_platform (Ok dmesg) = Ok platform -> platform <> "Unknown" ->
  exists line,
    line ∈ split newline dmesg /\
    (contains "tdx" (lower line) = true \/ contains "sev" (lower line) = true \/
     contains "memory encryption" (lower line) = true) /\
    is_tee_line line = true.
Proof.
  unfold get_tee_platform. simpl. rewrite intel_tdx_marker, sev_snp_marker.
  intros H Hp.
  assert (forall kw, contains (String newline "") kw = false ->
                     contains kw (lower dmesg) = true ->
                     exists line, line ∈ split newline dmesg /\
                                  contains kw (lower line) = true) as Hline.
  { intros kw Hnl Hc.
    destruct (contains_in_line newline kw _ Hnl Hc) as (line' & Hin & Hl).
    rewrite split_lower in Hin. apply list_elem_of_fmap in Hin as (line & -> & Hin).
    by exists line. }
  destruct (contains "tdx" (lower dmesg)) eqn:Htdx.
  { destruct (Hline "tdx" eq_refl Htdx) as (line & Hin & Hl).
    exists line. split; [done|]. split; [by left|].
    unfold is_tee_line. simpl. by rewrite Hl. }
  destruct (contains "sev" (lower dmesg)) eqn:Hsev.
  { destruct (Hline "sev" eq_refl Hsev) as (line & Hin & Hl).
    exists line. split; [done|]. split; [by right; left|].
    unfold is_tee_line. simpl. rewrite Hl. by rewrite orb_true_r. }
  destruct (contains "Memory Encryption" dmesg) eqn:Hme.
  { apply (contains_lower "Memory Encryption") in Hme.
    destruct (Hline "memory encryption" eq_refl Hme) as (line & Hin & Hl).
    exists line. split; [done|]. split; [by right; right|].
    unfold is_tee_line. simpl. rewrite Hl. by rewrite !orb_true_r. }
  simpl in H. by injection H as <-.
Qed.

(** X7: when both reads of the kernel log give the same text, a response
    with [tee_verified] true carries at least one line of evidence, and the
    log has a line with [tdx], [sev] or [memory encryption] in any case;
    that line, trimmed, is among the evidence when the log has at most ten
    lines with a keyword. *)
Theorem tee_verified_has_evidence env reply dmesg :
  dmesg_platform env = Ok dmesg -> dmesg_evidence env = Ok dmesg ->
  handle_attestation env = Ok reply ->
  exists response,
    body reply = AttestationBody response /\
    (Response.tee_verified response = true ->
     Response.tee_dmesg response <> [] /\
     exists line,
       line ∈ split newline dmesg /\
       (contains "tdx" (lower line) = true \/ contains "sev" (lower line) = true \/
        contains "memory encryption" (lower line) = true) /\
       (length (List.filter is_tee_line (split newline dmesg)) <= 10 ->
        strip line ∈ Response.tee_dmesg response)).
Proof.
  intros H1 H2 (p & d & v & a & t & g & Hp & Hd & _ & _ & _ & _ & ->)%handle_attestation_inv.
  eexists. split; [done|]. simpl. intros Hv.
  rewrite H1 in Hp. rewrite H2 in Hd.
  assert (p <> "Unknown") as Hne by (intros ->; discriminate Hv).
  split.
  - destruct (platform_has_evidence dmesg p Hp Hne) as (l & lines & Hl).
    rewrite Hl in Hd. by injection Hd as <-.
  - destruct (platform_marker_line dmesg p Hp Hne) as (line & Hin & Hmark & Hkeep).
    exists line. split; [done|]. split; [done|]. intros Hlen.
    rewrite get_tee_dmesg_lines_ok in Hd. injection Hd as <-.
    rewrite firstn_all2 by by rewrite length_map.
    apply list_elem_of_fmap. exists line. split; [done|].
    apply list_elem_of_In, filter_In. by rewrite <- list_elem_of_In.
Qed.

Lemma tee_verified_has_evidence_witness :
  exists response,
    body (attestation_reply response_tdx_gpu) = AttestationBody response /\
    (Response.tee_verified response = true ->
     Response.tee_dmesg response <> [] /\
     exists line,
       line ∈ split newline "[    0.000000] tdx: Guest detected" /\
       (contains "tdx" (lower line) = true \/ contains "sev" (lower line) = true \/
        contains "memory encryption" (lower line) = true) /\
       (length (List.filter is_tee_line
                  (split newline "[    0.000000] tdx: Guest detected")) <= 10 ->
        strip line ∈ Response.tee_dmesg response)).
Proof.
  apply (tee_verified_has_evidence env_tdx_gpu (attestation_reply response_tdx_gpu)
           "[    0.000000] tdx: Guest detected"); reflexivity.
Defined.

End PlatformEvidence.

(** ** The evidence and its bound *)

Section EvidenceBound.

(** The lines of two texts joined by the separator are the lines of the
    first followed by the lines of the second. *)
Lemma split_app sep a b :
  split sep (a +:+ String sep b) = split sep a ++ split sep b.
Proof.
  induction a as [|x a IH]; simpl.
  - by rewrite Ascii.eqb_refl.
  - rewrite IH. destruct (Ascii.eqb x sep); [done|].
    rewrite (split_before_after sep a). done.
Qed.

(** X8: for a log that was read, the number of lines returned is the
    number of lines with a keyword, capped at ten; every line returned is
    trimmed; and once a log has ten lines with a keyword, whatever follows
    it changes nothing. *)
Theorem get_tee_dmesg_lines_first_ten :
  (forall dmesg, exists lines,
     get_tee_dmesg_lines (Ok dmesg) = Ok lines /\
     length lines = Nat.min 10 (length (List.filter is_tee_line (split newline dmesg))) /\
     (forall l, l ∈ lines -> strip l = l)) /\
  (forall dmesg more,
     10 <= length (List.filter is_tee_line (split newline dmesg)) ->
     get_tee_dmesg_lines (Ok (dmesg +:+ String newline more)) =
     get_tee_dmesg_lines (Ok dmesg)).
Proof.
  split.
  - intros dmesg. eexists. split; [apply get_tee_dmesg_lines_ok|]. split.
    + by rewrite length_firstn, length_map.
    + intros l Hl. apply (subseteq_take 10) in Hl.
      apply list_elem_of_fmap in Hl as (line & -> & _). apply strip_idemp.
  - intros dmesg more Hlen. rewrite !get_tee_dmesg_lines_ok, split_app.
    rewrite List.filter_app, map_app. f_equal.
    apply take_app_le. by rewrite length_map.
Qed.

Lemma get_tee_dmesg_lines_first_ten_witness :
  get_tee_dmesg_lines (Ok (repeat_lines " tdx: module" 10 +:+ String newline "sev: late")) =
  get_tee_dmesg_lines (Ok (repeat_lines " tdx: module" 10)).
Proof.
  apply (proj2 get_tee_dmesg_lines_first_ten (repeat_lines " tdx: module" 10) "sev: late").
  vm_compute. lia.
Defined.

End EvidenceBound.

(** ** The attestation document and its fields *)

Section DocumentFields.

Lemma dict_get_missing items key default :
  key ∉ dict_keys items -> dict_get items key default = default.
Proof.
  induction items as [|[k v] items IH]; [done|]. simpl.
  intros [Hk Hitems]%not_elem_of_cons.
  destruct (String.eqb_spec k key) as [->|_]; [done|]. by apply IH.
Qed.

(** X9: a document without the key [signature] gives the empty signature,
    and one that also lacks [encoding] gives the encoding [unknown]: a
    missing key is no error. *)
Theorem get_azure_attestation_defaults loads text items :
  loads text = Ok (PDict items) ->
  "signature" ∉ dict_keys items ->
  get_azure_attestation loads (Ok text) =
    Ok (AzureDocument (dict_get items "encoding" (PStr "unknown")) (PStr "")) /\
  ("encoding" ∉ dict_keys items ->
   get_azure_attestation loads (Ok text) = Ok (AzureDocument (PStr "unknown") (PStr ""))).
Proof.
  intros Hl Hs. rewrite (get_azure_attestation_dict _ _ _ Hl). cbv zeta.
  rewrite (dict_get_missing items "signature") by done.
  split; [done|]. intros He. by rewrite (dict_get_missing items "encoding").
Qed.

Lemma get_azure_attestation_defaults_witness :
  get_azure_attestation (fun _ => Ok (PDict [])) (Ok "{}") =
    Ok (AzureDocument (dict_get [] "encoding" (PStr "unknown")) (PStr "")) /\
  ("encoding" ∉ dict_keys [] ->
   get_azure_attestation (fun _ => Ok (PDict [])) (Ok "{}") =
     Ok (AzureDocument (PStr "unknown") (PStr ""))).
Proof.
  apply (get_azure_attestation_defaults (fun _ => Ok (PDict [])) "{}" []).
  - reflexivity.
  - apply not_elem_of_nil.
Defined.

(** When the fetcher returns a document and when an error record. *)
Lemma get_azure_attestation_decoded_cases loads text data :
  loads text = Ok data ->
  exists azure,
    get_azure_attestation loads (Ok text) = Ok azure /\
    (is_document azure = true <->
     exists items, data = PDict items /\
                   signature_accepted (dict_get items "signature" (PStr "")) = true) /\
    ((forall items, data <> PDict items) ->
     azure = AzureError ("'" +:+ type_name data +:+ "' object has no attribute 'get'")).
Proof.
  intros Hl.
  assert ((forall items, data <> PDict items) ->
            get_azure_attestation loads (Ok text) =
            Ok (AzureError ("'" +:+ type_name data +:+ "' object has no attribute 'get'")))
    as Hother.
  { intros Hd. unfold get_azure_attestation. simpl. rewrite Hl. simpl.
    by destruct data as [| | | | | |items']; [..|destruct (Hd items')]. }
  destruct data as [| | | | | |items];
    try (eexists; split; [apply Hother; intros ?; discriminate|];
         split; [split; [done|by intros (? & ? & _)]|done]).
  rewrite (get_azure_attestation_dict _ _ _ Hl). cbv zeta.
  destruct (dict_get items "signature" (PStr "")) as [| | | |s|l|d] eqn:Hs;
    try (eexists; split; [done|]; split; [|by intros H; destruct (H items)];
         split; [done|]; intros (items' & [= <-] & Ha); by rewrite Hs in Ha).
  - eexists. split; [done|]. split; [|by intros H; destruct (H items)].
    split; [|done]. intros _. exists items. by rewrite Hs.
  - simpl. destruct (Nat.ltb_spec 200 (length l)) as [Hlen|Hlen];
      (eexists; split; [done|]; split; [|by intros H; destruct (H items)]); split.
    + done.
    + intros (items' & [= <-] & Ha). rewrite Hs in Ha. simpl in Ha.
      apply Nat.leb_le in Ha. lia.
    + intros _. exists items. rewrite Hs. split; [done|]. by apply Nat.leb_le.
    + done.
  - simpl. destruct (Nat.ltb_spec 200 (length d)) as [Hlen|Hlen];
      (eexists; split; [done|]; split; [|by intros H; destruct (H items)]); split.
    + done.
    + intros (items' & [= <-] & Ha). rewrite Hs in Ha. simpl in Ha.
      apply Nat.leb_le in Ha. lia.
    + intros _. exists items. rewrite Hs. split; [done|]. by apply Nat.leb_le.
    + done.
Qed.

(** X10: whatever value [json.loads] decodes, the fetcher returns; it
    returns a document exactly when the value is a dict whose signature
    (the empty text when the key is missing) is a text, or a list or a dict
    of at most 200 elements, and an error record otherwise.  The document
    holds the [encoding] of the dict ([unknown] when the key is missing) as
    it is, and its signature: a text cut to 200 characters and [...] when
    it is longer, a list or a dict as it is.  A decoded value that is not a
    dict is reported by its type. *)
Theorem get_azure_attestation_decoded loads text data :
  loads text = Ok data ->
  exists azure,
    get_azure_attestation loads (Ok text) = Ok azure /\
    (is_document azure = true <->
     exists items, data = PDict items /\
                   signature_accepted (dict_get items "signature" (PStr "")) = true) /\
    ((forall items, data <> PDict items) ->
     azure = AzureError ("'" +:+ type_name data +:+ "' object has no attribute 'get'")) /\
    (forall items encoding signature,
       data = PDict items -> azure = AzureDocument encoding signature ->
       encoding = dict_get items "encoding" (PStr "unknown") /\
       signature =
         match dict_get items "signature" (PStr "") with
         | PStr s =>
             PStr (if Nat.ltb 200 (String.length s) then PyStr.take 200 s +:+ "..." else s)
         | v => v
         end).
Proof.
  intros Hl.
  destruct (get_azure_attestation_decoded_cases loads text data Hl)
    as (azure & Ha & Hdoc & Hother).
  exists azure. repeat (split; [done|]).
  intros items encoding signature -> ->.
  rewrite (get_azure_attestation_dict _ _ _ Hl) in Ha. cbv zeta in Ha.
  unfold signature_preview in Ha.
  destruct (dict_get items "signature" (PStr "")) as [| | | |s|l|d];
    try discriminate; try (by injection Ha as <- <-).
  - destruct (Nat.ltb 200 (length l)); [discriminate|]. by injection Ha as <- <-.
  - destruct (Nat.ltb 200 (length d)); [discriminate|]. by injection Ha as <- <-.
Qed.

Lemma get_azure_attestation_decoded_witness :
  exists azure,
    get_azure_attestation (fun _ => Ok (document_with_signature 250)) (Ok "{}") = Ok azure /\
    azure = AzureDocument (PStr "pkcs7") (PStr (repeat_char "M" 200 +:+ "...")).
Proof.
  destruct (get_azure_attestation_decoded (fun _ => Ok (document_with_signature 250)) "{}"
              (document_with_signature 250) eq_refl) as (azure & Ha & _ & _ & Hholds).
  exists azure. split; [exact Ha|].
  destruct azure as [encoding signature|msg]; [|discriminate Ha].
  destruct (Hholds _ encoding signature eq_refl eq_refl) as [-> ->]. reflexivity.
Defined.

End DocumentFields.

(** ** The table of registers *)

Section RegisterTable.

Implicit Types (m : gmap string string) (lines : list string).

Lemma tpm_loop_other lines m k :
  (forall l, l ∈ lines -> is_tpm_entry l = true -> (tpm_entry l).1 <> k) ->
  fold_left tpm_line_step lines m !! k = m !! k.
Proof.
  revert m; induction lines as [|line lines IH]; intros m H; [done|]. simpl.
  rewrite IH by (intros l Hl; apply H; by right).
  rewrite tpm_line_step_entry. destruct (is_tpm_entry line) eqn:He; [|done].
  apply lookup_insert_ne, H; [left|done].
Qed.

(** X11: when several lines of the output carry the same label, the table
    holds the value of the last of them. *)
Theorem get_tpm_pcr_values_last_wins text lines1 line lines2 :
  split newline text = lines1 ++ line :: lines2 ->
  is_tpm_entry line = true ->
  (forall l, l ∈ lines2 -> is_tpm_entry l = true ->
             (tpm_entry l).1 <> (tpm_entry line).1) ->
  exists m,
    get_tpm_pcr_values (Ok text) = Ok m /\
    m !! (tpm_entry line).1 = Some (tpm_entry line).2.
Proof.
  intros Hsplit He Hlast. eexists. split; [apply get_tpm_pcr_values_ok|].
  rewrite Hsplit, fold_left_app. simpl.
  rewrite tpm_loop_other by done.
  by rewrite tpm_line_step_entry, He, lookup_insert_eq.
Qed.

Lemma get_tpm_pcr_values_last_wins_witness :
  exists m,
    get_tpm_pcr_values (Ok (pcr_line "7" "00" +:+ String newline (pcr_line "7" "ff"))) = Ok m /\
    m !! (tpm_entry (pcr_line "7" "ff")).1 = Some (tpm_entry (pcr_line "7" "ff")).2.
Proof.
  apply (get_tpm_pcr_values_last_wins
           (pcr_line "7" "00" +:+ String newline (pcr_line "7" "ff"))
           [pcr_line "7" "00"] (pcr_line "7" "ff") []).
  - reflexivity.
  - reflexivity.
  - intros l Hl. by apply elem_of_nil in Hl.
Defined.

(** X12: the table of a read that succeeded is empty exactly when no line
    of the output has both a colon and [0x]; output that cannot be parsed,
    the empty output among it, is not reported as an error. *)
Theorem get_tpm_pcr_values_empty text :
  get_tpm_pcr_values (Ok text) = Ok ∅ <->
  forall line, line ∈ split newline text -> is_tpm_entry line = false.
Proof.
  rewrite get_tpm_pcr_values_ok. split.
  - intros [= H] line Hin. destruct (is_tpm_entry line) eqn:He; [|done].
    assert (is_Some (fold_left tpm_line_step (split newline text) ∅ !! (tpm_entry line).1))
      as Hk by (apply tpm_loop_keys; right; by exists line).
    rewrite H, lookup_empty in Hk. by destruct Hk.
  - intros H. f_equal. apply map_eq. intros k.
    rewrite tpm_loop_other; [done|]. intros l Hl He. by rewrite (H l Hl) in He.
Qed.

(** The table after more lines is the table of these lines laid over the
    table before them. *)
Lemma tpm_loop_union lines m :
  fold_left tpm_line_step lines m = fold_left tpm_line_step lines ∅ ∪ m.
Proof.
  revert m; induction lines as [|line lines IH]; intros m; simpl.
  - by rewrite (left_id_L ∅ (∪)).
  - rewrite IH, (IH (tpm_line_step ∅ line)), !tpm_line_step_entry.
    destruct (is_tpm_entry line).
    + by rewrite <- (assoc_L (∪)), <- insert_union_l, (left_id_L ∅ (∪)).
    + by rewrite (right_id_L ∅ (∪)).
Qed.

(** X13: the table of an output followed by more output is the table of
    what follows, completed by the table of what precedes: a label keeps
    its earlier value only when no later line has it. *)
Theorem get_tpm_pcr_values_app text more :
  exists m1 m2,
    get_tpm_pcr_values (Ok text) = Ok m1 /\
    get_tpm_pcr_values (Ok more) = Ok m2 /\
    get_tpm_pcr_values (Ok (text +:+ String newline more)) = Ok (m2 ∪ m1).
Proof.
  eexists _, _. split; [apply get_tpm_pcr_values_ok|].
  split; [apply get_tpm_pcr_values_ok|].
  rewrite get_tpm_pcr_values_ok, split_app, fold_left_app. f_equal.
  apply tpm_loop_union.
Qed.

End RegisterTable.

Lemma get_tpm_pcr_values_empty_witness : get_tpm_pcr_values (Ok "  sha256:") = Ok ∅.
Proof.
  apply (proj2 (get_tpm_pcr_values_empty "  sha256:")).
  intros line Hin. apply list_elem_of_singleton in Hin as ->. reflexivity.
Defined.

(** ** The parts taken from a line *)

Section LineParts.

Lemma contains_char_before sep s : contains (String sep "") (before sep s) = false.
Proof.
  induction s as [|a s IH]; [done|]. simpl before.
  destruct (Ascii.eqb_spec a sep) as [->|Ha]; [done|].
  rewrite contains_char_cons, IH, orb_false_r.
  apply Ascii.eqb_neq. congruence.
Qed.

Lemma contains_char_strip sep s :
  isspace sep = false ->
  contains (String sep "") (strip s) = contains (String sep "") s.
Proof.
  intros Hsep. unfold strip.
  by rewrite (contains_char_rstrip sep Hsep), (contains_char_lstrip sep Hsep).
Qed.

(** A part cut at the next colon and trimmed is trimmed and has no colon. *)
Lemma strip_before_colon s :
  strip (strip (before colon s)) = strip (before colon s) /\
  contains ":" (strip (before colon s)) = false.
Proof.
  split; [apply strip_idemp|].
  change ":" with (String colon ""). rewrite contains_char_strip by done.
  apply contains_char_before.
Qed.

(** X14: in the table of a read that succeeded, every label and every
    value is trimmed and has no colon. *)
Theorem get_tpm_pcr_values_parts text m k v :
  get_tpm_pcr_values (Ok text) = Ok m -> m !! k = Some v ->
  strip k = k /\ strip v = v /\ contains ":" k = false /\ contains ":" v = false.
Proof.
  rewrite get_tpm_pcr_values_ok. intros [= <-] [H|(line & _ & _ & [= <- <-])]%tpm_loop_lookup.
  - by rewrite lookup_empty in H.
  - destruct (strip_before_colon line) as [H1 H2].
    destruct (strip_before_colon (after colon line)) as [H3 H4]. done.
Qed.

Lemma get_tpm_pcr_values_parts_witness :
  strip "0" = "0" /\ strip "0x12" = "0x12" /\
  contains ":" "0" = false /\ contains ":" "0x12" = false.
Proof.
  apply (get_tpm_pcr_values_parts "  0 : 0x12:34 " {["0" := "0x12"]} "0" "0x12");
    reflexivity.
Defined.

Lemma before_after sep s :
  contains (String sep "") s = true -> s = before sep s +:+ String sep (after sep s).
Proof.
  induction s as [|a s IH]; [done|].
  rewrite contains_char_cons, (Ascii.eqb_sym sep a). simpl.
  destruct (Ascii.eqb_spec a sep) as [->|_]; [done|]. simpl.
  intros H. by rewrite <- IH.
Qed.

Lemma find_first {A} (p : A -> bool) (l : list A) x :
  List.find p l = Some x ->
  exists earlier later,
    l = earlier ++ x :: later /\ p x = true /\ forall y, y ∈ earlier -> p y = false.
Proof.
  induction l as [|a l IH]; [done|]. simpl.
  destruct (p a) eqn:Ha.
  - intros [= <-]. exists [], l. split; [done|]. split; [done|].
    intros y Hy. by apply elem_of_nil in Hy.
  - intros (earlier & later & -> & Hx & Hearlier)%IH.
    exists (a :: earlier), later. split; [done|]. split; [done|].
    intros y [->|Hy]%elem_of_cons; [done|by apply Hearlier].
Qed.

(** X15: a model that the GPU Inspector reports comes from the first line
    of the output with [Product Name]: that line has a colon, and the model
    is the trimmed text between its first colon and its next colon, or the
    end of the line; so the model is trimmed and has no colon. *)
Theorem get_gpu_tee_status_model run r model :
  get_gpu_tee_status run = Ok r -> gpu_model r = Some model ->
  (exists text earlier line later label mid,
     run = Ok text /\
     split newline text = earlier ++ line :: later /\
     (forall l, l ∈ earlier -> contains "Product Name" l = false) /\
     contains "Product Name" line = true /\
     contains ":" label = false /\ contains ":" mid = false /\
     (line = label +:+ ":" +:+ mid \/
      exists rest, line = label +:+ ":" +:+ mid +:+ ":" +:+ rest) /\
     model = strip mid) /\
  strip model = model /\ contains ":" model = false.
Proof.
  destruct run as [text|e].
  - destruct (get_gpu_tee_status_ok text) as (r' & -> & _ & _ & _ & Hg & _).
    intros [= <-]. rewrite Hg.
    destruct (first_product_name (split newline text)) as [line|] eqn:Hfind; [|done].
    destruct (contains ":" line) eqn:Hcolon; [|done]. intros [= <-].
    split; [|apply strip_before_colon].
    apply find_first in Hfind as (earlier & later & Hsplit & Hline & Hearlier).
    exists text, earlier, line, later, (before colon line),
      (before colon (after colon line)).
    repeat (split; [done|]).
    split; [apply (contains_char_before colon)|].
    split; [apply (contains_char_before colon)|]. split; [|done].
    destruct (contains ":" (after colon line)) eqn:Hrest.
    + right. exists (after colon (after colon line)).
      change (line = before colon line +:+
                String colon (before colon (after colon line) +:+
                                String colon (after colon (after colon line)))).
      rewrite <- (before_after colon (after colon line)) by done.
      by apply before_after.
    + left.
      change (line = before colon line +:+ String colon (before colon (after colon line))).
      rewrite (before_no_sep colon (after colon line)) by done.
      by apply before_after.
  - unfold get_gpu_tee_status. simpl.
    destruct (is_FileNotFoundError e); [|destruct (is_Exception e)];
      by intros [= <-].
Qed.

Lemma get_gpu_tee_status_model_witness :
  (exists text earlier line later label mid,
     Ok "    Product Name    : NVIDIA H100 : PCIe" = Ok text /\
     split newline text = earlier ++ line :: later /\
     (forall l, l ∈ earlier -> contains "Product Name" l = false) /\
     contains "Product Name" line = true /\
     contains ":" label = false /\ contains ":" mid = false /\
     (line = label +:+ ":" +:+ mid \/
      exists rest, line = label +:+ ":" +:+ mid +:+ ":" +:+ rest) /\
     "NVIDIA H100" = strip mid) /\
  strip "NVIDIA H100" = "NVIDIA H100" /\ contains ":" "NVIDIA H100" = false.
Proof.
  apply (get_gpu_tee_status_model
           (Ok "    Product Name    : NVIDIA H100 : PCIe")
           {| gpu_detected := true; gpu_tee_verified := false; nvidia_cc_mode := "off";
              gpu_model := Some "NVIDIA H100"; error := None |} "NVIDIA H100");
    reflexivity.
Defined.

End LineParts.

(** ** Order and growth of the log *)

Section LogGrowth.

Lemma filter_map_sublist {A B} (p : A -> bool) (f : A -> B) (l : list A) :
  sublist (map f (List.filter p l)) (map f l).
Proof.
  induction l as [|x l IH]; simpl; [constructor|].
  destruct (p x); simpl; by constructor.
Qed.

(** X16: the lines returned for a log that was read are trimmed lines of
    the log in the order of the log: a sublist of its trimmed lines. *)
Theorem get_tee_dmesg_lines_in_order dmesg :
  exists lines,
    get_tee_dmesg_lines (Ok dmesg) = Ok lines /\
    sublist lines (map strip (split newline dmesg)).
Proof.
  eexists. split; [apply get_tee_dmesg_lines_ok|].
  etrans; [apply sublist_take|apply filter_map_sublist].
Qed.

Lemma contains_within sub s p q :
  contains sub s = true -> contains sub (p +:+ s +:+ q) = true.
Proof.
  intros (p' & q' & ->)%contains_inv.
  rewrite !append_assoc, <- (append_assoc p p'). apply contains_app.
Qed.

Lemma contains_lower_within sub s p q :
  contains sub (lower s) = true -> contains sub (lower (p +:+ s +:+ q)) = true.
Proof. intros H. rewrite !lower_app. by apply contains_within. Qed.

Lemma get_tee_platform_ok dmesg :
  get_tee_platform (Ok dmesg) =
  Ok (if contains "tdx" (lower dmesg) then "Intel-TDX"
      else if contains "sev" (lower dmesg) then "AMD-SEV-SNP"
      else if contains "Memory Encryption" dmesg then "AMD-SEV-SNP"
      else "Unknown").
Proof.
  unfold get_tee_platform. simpl. rewrite intel_tdx_marker, sev_snp_marker.
  by repeat case_match.
Qed.

(** X17: more log never loses a platform.  A log that contains a log
    detected as [Intel-TDX] is detected as [Intel-TDX], and a log that
    contains a log with a detected platform is not [Unknown]. *)
Theorem get_tee_platform_grows dmesg before_it after_it :
  (get_tee_platform (Ok dmesg) = Ok "Intel-TDX" ->
   get_tee_platform (Ok (before_it +:+ dmesg +:+ after_it)) = Ok "Intel-TDX") /\
  (get_tee_platform (Ok dmesg) <> Ok "Unknown" ->
   get_tee_platform (Ok (before_it +:+ dmesg +:+ after_it)) <> Ok "Unknown").
Proof.
  rewrite !get_tee_platform_ok. split.
  - destruct (contains "tdx" (lower dmesg)) eqn:Htdx.
    + intros _. by rewrite (contains_lower_within _ _ before_it after_it Htdx).
    + by repeat case_match.
  - intros H.
    destruct (contains "tdx" (lower dmesg)) eqn:Htdx.
    { by rewrite (contains_lower_within _ _ before_it after_it Htdx). }
    destruct (contains "sev" (lower dmesg)) eqn:Hsev.
    { rewrite (contains_lower_within _ _ before_it after_it Hsev). by case_match. }
    destruct (contains "Memory Encryption" dmesg) eqn:Hme; [|done].
    rewrite (contains_within _ _ before_it after_it Hme). by repeat case_match.
Qed.

Lemma get_tee_platform_grows_witness :
  get_tee_platform (Ok ("boot" +:+ "tdx: Guest detected" +:+ " SEV-SNP")) = Ok "Intel-TDX" /\
  get_tee_platform (Ok ("boot" +:+ "tdx: Guest detected" +:+ " SEV-SNP")) <> Ok "Unknown".
Proof.
  split.
  - apply (proj1 (get_tee_platform_grows "tdx: Guest detected" "boot" " SEV-SNP")).
    reflexivity.
  - apply (proj2 (get_tee_platform_grows "tdx: Guest detected" "boot" " SEV-SNP")).
    discriminate.
Defined.

End LogGrowth.

(** ** Failures and the reply *)

Section FailuresAndReply.

Lemma get_vm_size_ok environ text : get_vm_size environ (Ok text) = Ok (strip text).
Proof. done. Qed.

Lemma tpm_loop_entries lines (m : gmap string string) :
  fold_left tpm_line_step lines m =
  fold_left (fun table line =>
               if is_tpm_entry line
               then <[(tpm_entry line).1 := (tpm_entry line).2]> table else table)
    lines m.
Proof.
  revert m; induction lines as [|line lines IH]; intros m; [done|]. simpl.
  by rewrite IH, tpm_line_step_entry.
Qed.

Lemma get_gpu_tee_status_ok_eq text :
  get_gpu_tee_status (Ok text) =
  Ok {| gpu_detected := true;
        gpu_tee_verified := contains "Confidential Computing" text;
        nvidia_cc_mode := if contains "Confidential Computing" text then "on" else "off";
        gpu_model :=
          match first_product_name (split newline text) with
          | Some line =>
              if contains ":" line
              then Some (strip (before colon (after colon line))) else None
          | None => None
          end;
        error :=
          match first_product_name (split newline text) with
          | Some line => if contains ":" line then None else Some "list index out of range"
          | None => None
          end |}.
Proof.
  unfold get_gpu_tee_status, gpu_try. rewrite gpu_model_loop_spec.
  destruct (first_product_name (split newline text)) as [line|];
    [destruct (contains ":" line)|];
    by destruct (contains "Confidential Computing" text).
Qed.

(** What the fetcher returns for a decoded value. *)
Lemma get_azure_attestation_loaded loads text data :
  loads text = Ok data ->
  get_azure_attestation loads (Ok text) =
  Ok match data with
     | PDict items =>
         match dict_get items "signature" (PStr "") with
         | PStr s =>
             AzureDocument (dict_get items "encoding" (PStr "unknown"))
               (PStr (if Nat.ltb 200 (String.length s)
                      then PyStr.take 200 s +:+ "..." else s))
         | PList l =>
             if Nat.ltb 200 (length l)
             then AzureError ("can only concatenate list (not " +:+ dquote +:+ "str"
                                +:+ dquote +:+ ") to list")
             else AzureDocument (dict_get items "encoding" (PStr "unknown")) (PList l)
         | PDict d =>
             if Nat.ltb 200 (length d)
             then AzureError "unhashable type: 'slice'"
             else AzureDocument (dict_get items "encoding" (PStr "unknown")) (PDict d)
         | v => AzureError ("object of type '" +:+ type_name v +:+ "' has no len()")
         end
     | _ => AzureError ("'" +:+ type_name data +:+ "' object has no attribute 'get'")
     end.
Proof.
  intros Hl. destruct data as [| | | | | |items];
    try (unfold get_azure_attestation; simpl; rewrite Hl; done).
  rewrite (get_azure_attestation_dict _ _ _ Hl). cbv zeta. unfold signature_preview.
  destruct (dict_get items "signature" (PStr "")) as [| | | |s|l|d]; try done.
  - by destruct (Nat.ltb 200 (length l)).
  - by destruct (Nat.ltb 200 (length d)).
Qed.

(** C2, as the code has it: whatever calls fail, with failures that derive
    from [Exception], each collector returns a value; the value encodes the
    failure of its own call, or of the parsing of its output, in its own
    slot, and holds the evidence of a call that succeeded; and the request
    is answered with status 200 and the response composed from the six
    values whenever sending the headers and serialising and writing that
    response do not themselves fail. *)
Theorem handle_attestation_absorbs_failures env :
  env_ordinary env ->
  exists platform tee_dmesg vm_size azure tpm gpu_status,
    (get_tee_platform (dmesg_platform env) = Ok platform /\
     get_tee_dmesg_lines (dmesg_evidence env) = Ok tee_dmesg /\
     get_vm_size (environ_VM_SIZE env) (curl_vm_size env) = Ok vm_size /\
     get_azure_attestation (json_loads env) (curl_attested_document env) = Ok azure /\
     get_tpm_pcr_values (tpm2_pcrread env) = Ok tpm /\
     get_gpu_tee_status (nvidia_smi_q env) = Ok gpu_status) /\
    ((forall e, dmesg_platform env = Raise e -> platform = "Unknown") /\
     (forall text, dmesg_platform env = Ok text ->
        platform = if contains "tdx" (lower text) then "Intel-TDX"
                   else if contains "sev" (lower text) then "AMD-SEV-SNP"
                   else if contains "Memory Encryption" text then "AMD-SEV-SNP"
                   else "Unknown")) /\
    ((forall e, dmesg_evidence env = Raise e ->
        tee_dmesg = ["Error reading dmesg: " +:+ exn_str e]) /\
     (forall text, dmesg_evidence env = Ok text ->
        tee_dmesg =
          List.firstn 10 (map strip (List.filter is_tee_line (split newline text))))) /\
    ((forall e, curl_vm_size env = Raise e ->
        vm_size = default "Unknown" (environ_VM_SIZE env)) /\
     (forall text, curl_vm_size env = Ok text -> vm_size = strip text)) /\
    ((forall e, curl_attested_document env = Raise e -> azure = AzureError (exn_str e)) /\
     (forall text e, curl_attested_document env = Ok text -> json_loads env text = Raise e ->
        azure = AzureError (exn_str e)) /\
     (forall text data, curl_attested_document env = Ok text -> json_loads env text = Ok data ->
        azure =
          match data with
          | PDict items =>
              match dict_get items "signature" (PStr "") with
              | PStr s =>
                  AzureDocument (dict_get items "encoding" (PStr "unknown"))
                    (PStr (if Nat.ltb 200 (String.length s)
                           then PyStr.take 200 s +:+ "..." else s))
              | PList l =>
                  if Nat.ltb 200 (length l)
                  then AzureError ("can only concatenate list (not " +:+ dquote +:+ "str"
                                     +:+ dquote +:+ ") to list")
                  else AzureDocument (dict_get items "encoding" (PStr "unknown")) (PList l)
              | PDict d =>
                  if Nat.ltb 200 (length d)
                  then AzureError "unhashable type: 'slice'"
                  else AzureDocument (dict_get items "encoding" (PStr "unknown")) (PDict d)
              | v => AzureError ("object of type '" +:+ type_name v +:+ "' has no len()")
              end
          | _ => AzureError ("'" +:+ type_name data +:+ "' object has no attribute 'get'")
          end)) /\
    ((forall e, tpm2_pcrread env = Raise e ->
        tpm = {["error" := if is_FileNotFoundError e then "tpm2-tools not installed"
                           else if is_TimeoutExpired e then "TPM read timeout"
                           else exn_str e]}) /\
     (forall text, tpm2_pcrread env = Ok text ->
        tpm = fold_left
                (fun table line =>
                   if is_tpm_entry line
                   then <[(tpm_entry line).1 := (tpm_entry line).2]> table else table)
                (split newline text) ∅)) /\
    ((forall e, nvidia_smi_q env = Raise e ->
        gpu_status =
          {| gpu_detected := false; gpu_tee_verified := false; nvidia_cc_mode := "unknown";
             gpu_model := None;
             error := if is_FileNotFoundError e then None else Some (exn_str e) |}) /\
     (forall text, nvidia_smi_q env = Ok text ->
        gpu_status =
          {| gpu_detected := true;
             gpu_tee_verified := contains "Confidential Computing" text;
             nvidia_cc_mode :=
               if contains "Confidential Computing" text then "on" else "off";
             gpu_model :=
               match first_product_name (split newline text) with
               | Some line =>
                   if contains ":" line
                   then Some (strip (before colon (after colon line))) else None
               | None => None
               end;
             error :=
               match first_product_name (split newline text) with
               | Some line =>
                   if contains ":" line then None else Some "list index out of range"
               | None => None
               end |})) /\
    (send_headers env 200 attestation_headers = Ok tt ->
     write_body env
       (AttestationBody
          (compose_response platform tee_dmesg vm_size azure tpm (utcnow_isoformat env)
             gpu_status)) = Ok tt ->
     exists reply,
       do_GET "/attestation" env = Ok reply /\
       do_GET "/v1/attestation" env = Ok reply /\
       handle_attestation env = Ok reply /\
       status_code reply = 200 /\
       headers reply = [("Content-type", "application/json");
                        ("Access-Control-Allow-Origin", "*")] /\
       body reply =
         AttestationBody
           (compose_response platform tee_dmesg vm_size azure tpm (utcnow_isoformat env)
              gpu_status)).
Proof.
  intros Henv.
  destruct (handle_attestation_returns env Henv)
    as (p & d & v & a & t & g & Hp & Hd & Hv & Ha & Ht & Hg & Hreply).
  destruct Henv as (H1 & H2 & H3 & H4 & H5 & H6 & H7).
  exists p, d, v, a, t, g. split; [done|].
  split; [split|]; [| |split; [split|]; [| |split; [split|]; [| |split; [split; [|split]|];
    [| | |split; [split|]; [| |split; [split|]]]]]].
  - intros e He. rewrite He in Hp, H1.
    rewrite get_tee_platform_failure in Hp by done. congruence.
  - intros text He. rewrite He, get_tee_platform_ok in Hp. congruence.
  - intros e He. rewrite He in Hd, H2.
    rewrite get_tee_dmesg_lines_failure in Hd by done. congruence.
  - intros text He. rewrite He, get_tee_dmesg_lines_ok in Hd. congruence.
  - intros e He. rewrite He in Hv, H3.
    rewrite get_vm_size_failure in Hv by done. congruence.
  - intros text He. rewrite He, get_vm_size_ok in Hv. congruence.
  - intros e He. rewrite He in Ha, H4.
    rewrite get_azure_attestation_failure in Ha by done. congruence.
  - intros text e He Hl. rewrite He in Ha. specialize (H5 text). rewrite Hl in H5.
    rewrite (get_azure_attestation_unparsable _ _ _ Hl) in Ha by done. congruence.
  - intros text data He Hl. rewrite He, (get_azure_attestation_loaded _ _ _ Hl) in Ha.
    congruence.
  - intros e He. rewrite He in Ht, H6.
    rewrite get_tpm_pcr_values_raise in Ht by done. congruence.
  - intros text He. rewrite He, get_tpm_pcr_values_ok, tpm_loop_entries in Ht. congruence.
  - intros e He. rewrite He in Hg, H7.
    rewrite get_gpu_tee_status_raise in Hg by done.
    injection Hg as <-. by destruct (is_FileNotFoundError e).
  - intros text He. rewrite He, get_gpu_tee_status_ok_eq in Hg. congruence.
  - intros Hsend Hwrite. specialize (Hreply Hsend Hwrite).
    eexists. split; [exact Hreply|]. split; [exact Hreply|]. by split.
Qed.

Lemma handle_attestation_absorbs_failures_witness :
  env_ordinary env_all_failing /\
  exists reply,
    handle_attestation env_all_failing = Ok reply /\ status_code reply = 200.
Proof.
  split; [exact env_all_failing_ordinary|].
  destruct (handle_attestation_absorbs_failures env_all_failing env_all_failing_ordinary)
    as (p & d & v & a & t & g & _ & _ & _ & _ & _ & _ & _ & Hsent).
  destruct (Hsent eq_refl eq_refl) as (reply & _ & _ & Hreply & Hstatus & _).
  exists reply. split; [exact Hreply|exact Hstatus].
Defined.

(** C2 as the specification words it fails: on a host whose failures are
    all ordinary, a document that [json.loads] decodes but that is nested
    too deep for [json.dumps] is handed on by the fetcher, and the request
    ends with [RecursionError] instead of a reply; so does, with [OSError],
    a request whose client is gone when the body is written. *)
Lemma handle_attestation_no_reply :
  env_ordinary env_deep_document /\
  get_azure_attestation (json_loads env_deep_document)
    (curl_attested_document env_deep_document) =
    Ok (AzureDocument (nested_list 991) (PStr "")) /\
  handle_attestation env_deep_document =
    Raise (Exn RecursionError "maximum recursion depth exceeded") /\
  do_GET "/attestation" env_deep_document =
    Raise (Exn RecursionError "maximum recursion depth exceeded") /\
  env_ordinary env_client_gone /\
  handle_attestation env_client_gone = Raise (Exn OSError "[Errno 32] Broken pipe") /\
  ~ (forall env, env_ordinary env ->
       exists reply, handle_attestation env = Ok reply /\ status_code reply = 200).
Proof.
  assert (handle_attestation env_deep_document =
          Raise (Exn RecursionError "maximum recursion depth exceeded")) as Hraise
    by (vm_compute; reflexivity).
  assert (env_ordinary env_deep_document) as Hord by (repeat split; try reflexivity).
  split; [exact Hord|]. split; [reflexivity|]. split; [exact Hraise|].
  split; [exact Hraise|].
  split; [repeat split; try reflexivity|]. split; [reflexivity|].
  intros H. destruct (H env_deep_document Hord) as (reply & Hreply & _).
  rewrite Hraise in Hreply. discriminate Hreply.
Qed.

End FailuresAndReply.
